(** * rate-system: student rating, college rating and admission odds

    A shallow embedding of [rate-system.js] (the scoring module required by
    [server.js] as ['./rate-system']) and the properties its specification
    states about it.

    Conventions of the embedding.

    - A JavaScript number is a [num]: [NaN], the two infinities, or a finite
      value held as an exact rational.  The rounding of IEEE doubles is not
      modelled by [num], nor is the sign of zero; every divisor in the
      module is a non-zero constant, an array length under a [length > 0]
      guard, or at least one, so the sign of zero is never observed.  Where
      a property turns on the rounding, the function is taken on the
      doubles themselves: [Binary64] holds [getAdmissionOdds] on the
      binary64 numbers of the kernel.
    - A JavaScript value is a [value]: the primitives, arrays and plain
      objects (an association list of own properties, the prototype being
      [Object.prototype]).  Functions, symbols and accessors are not values
      of the model.  A property is read among the own properties: every
      name the module reads with a fixed key is one that no prototype
      defines, and where a key is computed (the headers of a CSV file) the
      names [Object.prototype] defines are set apart.
    - The conversion of an object to a primitive can throw;
      [throwsToPrimitive] tells when, and [ToString] and [ToNumber] give
      the result when it does not.
    - A string is a Rocq [string] holding the UTF-8 bytes of the
      JavaScript string, as the files read and the request bodies hold
      it.  The delimiters the module looks for (comma, double quote, line
      feed, digits, signs) are ASCII, one byte each; white space is the
      set WhiteSpace and LineTerminator of the language, on one to three
      bytes.  A string with a lone surrogate has no such encoding and is
      outside the model; the length and the indices of a string count
      bytes, which are its code units when it is ASCII.
    - A thrown exception, or a rejected promise, is [None]; [await] on a
      promise is the bind of [option]. *)

From Stdlib Require Import ZArith QArith Qround Qabs Lqa Lia.
From Stdlib Require Import List String Ascii Bool.
From Stdlib Require PrimFloat FloatOps Uint63.
Import ListNotations.

Set Warnings "-register-all".
Open Scope Q_scope.

(** ** Numbers *)

Module Num.

Inductive num : Type :=
| NaN
| PInf
| NInf
| Fin (q : Q).

Definition isNaN (x : num) : bool :=
  match x with NaN => true | _ => false end.

(** Sign of a number that is not [NaN]: [Gt], [Eq] or [Lt] against zero. *)
Definition sign (x : num) : comparison :=
  match x with
  | NaN => Eq
  | PInf => Gt
  | NInf => Lt
  | Fin q => q ?= 0
  end.

Definition neg (x : num) : num :=
  match x with
  | NaN => NaN
  | PInf => NInf
  | NInf => PInf
  | Fin q => Fin (- q)
  end.

Definition add (x y : num) : num :=
  match x, y with
  | NaN, _ | _, NaN => NaN
  | PInf, NInf | NInf, PInf => NaN
  | PInf, _ | _, PInf => PInf
  | NInf, _ | _, NInf => NInf
  | Fin a, Fin b => Fin (a + b)
  end.

Definition sub (x y : num) : num := add x (neg y).

(** The infinity whose sign is the product of two signs; [NaN] when one of
    them is zero. *)
Definition inf_of_signs (s t : comparison) : num :=
  match s, t with
  | Eq, _ | _, Eq => NaN
  | Gt, Gt | Lt, Lt => PInf
  | Gt, Lt | Lt, Gt => NInf
  end.

Definition mul (x y : num) : num :=
  match x, y with
  | NaN, _ | _, NaN => NaN
  | Fin a, Fin b => Fin (a * b)
  | _, _ => inf_of_signs (sign x) (sign y)
  end.

Definition div (x y : num) : num :=
  match x, y with
  | NaN, _ | _, NaN => NaN
  | Fin a, Fin b =>
      match b ?= 0 with
      | Eq => inf_of_signs (a ?= 0) Gt
      | _ => Fin (a / b)
      end
  | Fin _, _ => Fin 0
  | _, Fin b => inf_of_signs (sign x) (match b ?= 0 with Eq => Gt | c => c end)
  | _, _ => NaN
  end.

Definition abs (x : num) : num :=
  match x with
  | NaN => NaN
  | PInf | NInf => PInf
  | Fin q => Fin (Qabs q)
  end.

(** [x < y]; false as soon as one side is [NaN]. *)
Definition ltb (x y : num) : bool :=
  match x, y with
  | NaN, _ | _, NaN => false
  | _, NInf => false
  | NInf, _ => true
  | PInf, _ => false
  | _, PInf => true
  | Fin a, Fin b => match a ?= b with Lt => true | _ => false end
  end.

(** [x === y] on numbers. *)
Definition eqb (x y : num) : bool :=
  match x, y with
  | PInf, PInf | NInf, NInf => true
  | Fin a, Fin b => Qeq_bool a b
  | _, _ => false
  end.

Definition leb (x y : num) : bool := ltb x y || eqb x y.
Definition gtb (x y : num) : bool := ltb y x.
Definition geb (x y : num) : bool := leb y x.

Definition min (x y : num) : num :=
  if isNaN x || isNaN y then NaN else if ltb y x then y else x.

Definition max (x y : num) : num :=
  if isNaN x || isNaN y then NaN else if ltb x y then y else x.

(** [Math.round]: the integer nearest to [x], a tie going up. *)
Definition round (x : num) : num :=
  match x with
  | Fin q => Fin (inject_Z (Qfloor (q + 0.5)))
  | _ => x
  end.

Definition isFinite (x : num) : bool :=
  match x with Fin _ => true | _ => false end.

(** A number is an integer of the range [lo..hi]. *)
Definition int_in (lo hi : Z) (x : num) : Prop :=
  exists n : Z, x = Fin (inject_Z n) /\ (lo <= n <= hi)%Z.

(** A number is finite and lies in the closed interval [lo, hi]. *)
Definition within (lo hi : Q) (x : num) : Prop :=
  exists q : Q, x = Fin q /\ lo <= q <= hi.

End Num.

Export Num.

Declare Scope num_scope.
Delimit Scope num_scope with num.
Bind Scope num_scope with num.
Infix "+" := Num.add : num_scope.
Infix "-" := Num.sub : num_scope.
Infix "*" := Num.mul : num_scope.
Infix "/" := Num.div : num_scope.
Infix "<?" := Num.ltb (at level 70) : num_scope.
Infix "<=?" := Num.leb (at level 70) : num_scope.
Infix ">?" := Num.gtb (at level 70) : num_scope.
Infix ">=?" := Num.geb (at level 70) : num_scope.
Infix "===" := Num.eqb (at level 70) : num_scope.
Coercion Fin : Q >-> num.

(** ** Strings *)

Module Str.

#[local] Open Scope string_scope.
#[local] Open Scope Z_scope.

Definition code (c : ascii) : Z := Z.of_N (N_of_ascii c).

(** White space stripped by [trim] and skipped by [parseInt] and
    [parseFloat]: the characters of WhiteSpace and LineTerminator, which
    UTF-8 writes on one, two or three bytes.

    On one byte: tab, line feed, vertical tab, form feed, carriage return,
    space. *)
Definition is_ws (c : ascii) : bool :=
  let n := code c in ((9 <=? n) && (n <=? 13)) || (n =? 32).

(** On two bytes: the no-break space U+00A0. *)
Definition is_ws2 (c d : ascii) : bool :=
  (code c =? 194) && (code d =? 160).

(** On three bytes: U+1680, U+2000 to U+200A, the line and paragraph
    separators U+2028 and U+2029, U+202F, U+205F, U+3000 and the byte
    order mark U+FEFF. *)
Definition is_ws3 (c d e : ascii) : bool :=
  let '(a, b, n) := (code c, code d, code e) in
  ((a =? 225) && (b =? 154) && (n =? 128))
  || ((a =? 226) && (b =? 128)
      && (((128 <=? n) && (n <=? 138)) || (n =? 168) || (n =? 169) || (n =? 175)))
  || ((a =? 226) && (b =? 129) && (n =? 159))
  || ((a =? 227) && (b =? 128) && (n =? 128))
  || ((a =? 239) && (b =? 187) && (n =? 191)).

(** [s] is one white-space character. *)
Definition is_ws_char (s : string) : bool :=
  match s with
  | String c EmptyString => is_ws c
  | String c (String d EmptyString) => is_ws2 c d
  | String c (String d (String e EmptyString)) => is_ws3 c d e
  | _ => false
  end.

(** The class [\d] of a regular expression without the unicode flag. *)
Definition is_digit (c : ascii) : bool :=
  let n := code c in (48 <=? n) && (n <=? 57).

Definition digit_val (c : ascii) : Z := code c - 48.

Definition is_empty (s : string) : bool :=
  match s with EmptyString => true | _ => false end.

Fixpoint trimStart (s : string) : string :=
  match s with
  | String c r =>
      if is_ws c then trimStart r
      else
        match r with
        | String d r1 =>
            if is_ws2 c d then trimStart r1
            else
              match r1 with
              | String e r2 => if is_ws3 c d e then trimStart r2 else s
              | EmptyString => s
              end
        | EmptyString => s
        end
  | EmptyString => EmptyString
  end.

(** What is left of [r] once its end is trimmed is empty exactly when [r]
    is white space only; a character before it is then dropped when it is
    white space itself. *)
Fixpoint trimEnd (s : string) : string :=
  match s with
  | String c r =>
      let r' := trimEnd r in
      if is_ws_char (String c r') then EmptyString else String c r'
  | EmptyString => EmptyString
  end.

Definition trim (s : string) : string := trimEnd (trimStart s).

(** [join sep l]: [Array.prototype.join] on an array of strings. *)
Fixpoint join (sep : string) (l : list string) : string :=
  match l with
  | [] => ""
  | [x] => x
  | x :: r => x ++ sep ++ join sep r
  end.

(** Reads the longest run of decimal digits at the head of [s]: the value
    read on top of [acc], the number of digits read, and what follows. *)
Fixpoint scan_digits (acc : Z) (n : nat) (s : string) : Z * nat * string :=
  match s with
  | String c r =>
      if is_digit c then scan_digits (10 * acc + digit_val c) (S n) r
      else (acc, n, s)
  | EmptyString => (acc, n, s)
  end.

(** An optional sign at the head of [s]: [1] or [-1], and what follows. *)
Definition scan_sign (s : string) : Z * string :=
  match s with
  | String "+" r => (1, r)
  | String "-" r => (-1, r)
  | _ => (1, s)
  end.

(** [first_digits s]: the capture of [s.match(/(\d+)/)], the first maximal
    run of digits of [s]; [None] when the match is [null]. *)
Fixpoint take_digits (s : string) : string :=
  match s with
  | String c r => if is_digit c then String c (take_digits r) else EmptyString
  | EmptyString => EmptyString
  end.

Fixpoint first_digits (s : string) : option string :=
  match s with
  | String c r => if is_digit c then Some (take_digits s) else first_digits r
  | EmptyString => None
  end.

Definition signed (sg : Z) (x : num) : num :=
  if sg <? 0 then Num.neg x else x.

(** [parseInt(s, 10)]. *)
Definition parseInt (s : string) : num :=
  let '(sg, s1) := scan_sign (trimStart s) in
  let '(v, n, _) := scan_digits 0 0 s1 in
  match n with
  | O => NaN
  | _ => signed sg (Fin (inject_Z v))
  end.

(** The exponent part [e], [e+] or [e-] followed by at least one digit; an
    exponent marker that no digit follows is not part of the literal. *)
Definition scan_exponent (s : string) : Z * string :=
  match s with
  | String c r =>
      if (code c =? 101) || (code c =? 69) then
        let '(sg, r1) := scan_sign r in
        let '(e, n, r2) := scan_digits 0 0 r1 in
        match n with
        | O => (0, s)
        | _ => (sg * e, r2)
        end
      else (0, s)
  | EmptyString => (0, s)
  end.

(** The longest prefix of [s] that is a decimal literal of the grammar
    [StrDecimalLiteral] (sign, [Infinity], digits, fraction, exponent): its
    value and what follows it; [None] when no prefix is one. *)
Definition scan_decimal (s : string) : option (num * string) :=
  let '(sg, s1) := scan_sign s in
  if prefix "Infinity" s1 then
    Some (signed sg PInf, substring 8 (length s1 - 8) s1)
  else
    let '(iv, ni, s2) := scan_digits 0 0 s1 in
    let '(m, nf, s3) :=
      match s2 with
      | String "." r => scan_digits iv 0 r
      | _ => (iv, O, s2)
      end in
    match (ni + nf)%nat with
    | O => None
    | _ =>
        let '(e, s4) := scan_exponent s3 in
        Some (signed sg (Fin (inject_Z m * Qpower 10 (e - Z.of_nat nf))), s4)
    end.

(** [parseFloat(s)] for a string [s].  The value is that of the literal,
    exactly: it is not rounded to a double, and a literal beyond the
    largest double stays finite. *)
Definition parseFloat (s : string) : num :=
  match scan_decimal (trimStart s) with
  | Some (x, _) => x
  | None => NaN
  end.

(** Digits of a literal in base 2, 8 or 16. *)
Definition radix_digit (radix : Z) (c : ascii) : option Z :=
  let n := code c in
  let d :=
    if (48 <=? n) && (n <=? 57) then n - 48
    else if (97 <=? n) && (n <=? 102) then n - 87
    else if (65 <=? n) && (n <=? 70) then n - 55
    else radix in
  if d <? radix then Some d else None.

Fixpoint scan_radix (radix : Z) (acc : Z) (s : string) : option Z :=
  match s with
  | String c r =>
      match radix_digit radix c with
      | Some d => scan_radix radix (radix * acc + d) r
      | None => None
      end
  | EmptyString => Some acc
  end.

Definition radix_literal (radix : Z) (s : string) : num :=
  match s with
  | EmptyString => NaN
  | _ => match scan_radix radix 0 s with
         | Some v => Fin (inject_Z v)
         | None => NaN
         end
  end.

(** [Number(s)] for a string [s] (the abstract operation StringToNumber):
    the whole of [s], white space apart, must be a numeric literal; the
    empty string is zero. *)
Definition StringToNumber (s : string) : num :=
  match trim s with
  | EmptyString => Fin 0
  | String "0" (String c r) as t =>
      if (code c =? 120) || (code c =? 88) then radix_literal 16 r
      else if (code c =? 111) || (code c =? 79) then radix_literal 8 r
      else if (code c =? 98) || (code c =? 66) then radix_literal 2 r
      else match scan_decimal t with
           | Some (x, EmptyString) => x
           | _ => NaN
           end
  | t => match scan_decimal t with
         | Some (x, EmptyString) => x
         | _ => NaN
         end
  end.

End Str.

Export Str.

(** ** Values *)

Module Value.

#[local] Open Scope string_scope.

Inductive value : Type :=
| VUndef
| VNull
| VBool (b : bool)
| VNum (x : num)
| VStr (s : string)
| VArr (elems : list value)
| VObj (props : list (string * value)).

(** ToBoolean. *)
Definition truthy (v : value) : bool :=
  match v with
  | VUndef | VNull => false
  | VBool b => b
  | VNum x => negb (isNaN x || (x === 0)%num)
  | VStr s => negb (is_empty s)
  | VArr _ | VObj _ => true
  end.

(** [a || b], both operands already evaluated (the right operand of every
    [||] of the module is a literal). *)
Definition or_else (a b : value) : value := if truthy a then a else b.

(** [typeof v === 'string']: the string inside, if [v] is one. *)
Definition as_string (v : value) : option string :=
  match v with VStr s => Some s | _ => None end.

(** [a === b].  Arrays and objects are compared by reference; the module
    compares against literals only, and no reference equals a literal. *)
Definition strict_eq (a b : value) : bool :=
  match a, b with
  | VUndef, VUndef | VNull, VNull => true
  | VBool x, VBool y => Bool.eqb x y
  | VNum x, VNum y => (x === y)%num
  | VStr x, VStr y => String.eqb x y
  | _, _ => false
  end.

(** [Number.isFinite(v)]: no conversion, only a finite number passes. *)
Definition Number_isFinite (v : value) : bool :=
  match v with VNum x => isFinite x | _ => false end.

Fixpoint lookup (k : string) (ps : list (string * value)) : value :=
  match ps with
  | [] => VUndef
  | (k', v) :: r => if String.eqb k k' then v else lookup k r
  end.

(** [o] has an own property [k]. *)
Definition has_own (k : string) (ps : list (string * value)) : bool :=
  existsb (fun p => String.eqb k (fst p)) ps.

(** The conversion of [v] to a primitive throws a [TypeError].  The
    conversion of an object calls its [valueOf] and its [toString]; no
    value of the model is a function, so that an own property of either
    name is not callable and is skipped.  The [valueOf] inherited from
    [Object.prototype] returns the object, which is no primitive, and the
    inherited [toString] is what gives ["[object Object]"]: the conversion
    throws exactly when an own [toString] hides it.  An array converts
    through [join], which converts every element that is not [undefined] or
    [null]. *)
Fixpoint throwsToPrimitive (v : value) : bool :=
  match v with
  | VObj ps => has_own "toString" ps
  | VArr l =>
      (fix elems (l : list value) : bool :=
         match l with
         | [] => false
         | VUndef :: r | VNull :: r => elems r
         | x :: r => throwsToPrimitive x || elems r
         end) l
  | _ => false
  end.

(** The array index a property key denotes, if any: a decimal numeral
    without a leading zero. *)
Definition index_of_key (k : string) : option nat :=
  match k with
  | String "0" (String _ _) => None
  | _ => match scan_digits 0 0 k with
         | (v, S _, EmptyString) => Some (Z.to_nat v)
         | _ => None
         end
  end.

(** [v.k] and [v[k]]: reading a property of [undefined] or [null] throws;
    a property the value does not have reads [undefined]. *)
Definition get (v : value) (k : string) : option value :=
  match v with
  | VUndef | VNull => None
  | VObj ps => Some (lookup k ps)
  | VArr l =>
      if String.eqb k "length" then Some (VNum (Fin (inject_Z (Z.of_nat (List.length l)))))
      else match index_of_key k with
           | Some i => Some (nth i l VUndef)
           | None => Some VUndef
           end
  | VStr s =>
      if String.eqb k "length" then Some (VNum (Fin (inject_Z (Z.of_nat (String.length s)))))
      else match index_of_key k with
           | Some i => Some (match String.get i s with
                             | Some c => VStr (String c EmptyString)
                             | None => VUndef
                             end)
           | None => Some VUndef
           end
  | VBool _ | VNum _ => Some VUndef
  end.

(** The operand chain [a && a.k]: [a] itself when it is falsy. *)
Definition and_get (a : option value) (k : string) : option value :=
  match a with
  | Some v => if truthy v then get v k else Some v
  | None => None
  end.

(** [Array.isArray(v)]: the elements, if [v] is an array. *)
Definition as_array (v : value) : option (list value) :=
  match v with VArr l => Some l | _ => None end.

Section Conversions.

(** The text of a number ([Number.prototype.toString]) is left open: the
    shortest digits that read back as the same double have no counterpart
    on exact rationals. *)
Variable NumberToString : num -> string.

(** ToString, where the conversion does not throw (see
    [throwsToPrimitive]).  An array joins its elements with a comma,
    [null] and [undefined] elements giving the empty string; a plain
    object is ["[object Object]"]. *)
Fixpoint ToString (v : value) : string :=
  match v with
  | VUndef => "undefined"
  | VNull => "null"
  | VBool true => "true"
  | VBool false => "false"
  | VNum x => NumberToString x
  | VStr s => s
  | VArr l =>
      join ","
        ((fix elems (l : list value) : list string :=
            match l with
            | [] => []
            | VUndef :: r | VNull :: r => "" :: elems r
            | x :: r => ToString x :: elems r
            end) l)
  | VObj _ => "[object Object]"
  end.

(** ToNumber, where the conversion does not throw.  An array or an object
    goes through its text. *)
Definition ToNumber (v : value) : num :=
  match v with
  | VUndef => NaN
  | VNull => Fin 0
  | VBool true => Fin 1
  | VBool false => Fin 0
  | VNum x => x
  | VStr s => StringToNumber s
  | VArr _ | VObj _ => StringToNumber (ToString v)
  end.

End Conversions.

End Value.

Export Value.

(** [v.k] where [v] is known not to be [undefined] or [null]: the operand
    after [v &&], an element kept by a filter on [v && ...], or the operand
    of a destructuring of [v || {}]. *)
Definition field (v : value) (k : string) : value :=
  match get v k with
  | Some x => x
  | None => VUndef
  end.

(** [v && v.k]. *)
Definition and_field (v : value) (k : string) : value :=
  if truthy v then field v k else v.

(** A destructuring default [k = d]: taken when the property is
    [undefined]. *)
Definition default_to (v d : value) : value :=
  match v with
  | VUndef => d
  | _ => v
  end.

(** ** The outside world of [getActivitiesScore] *)

(** What of the request varies: the bearer token and the user message. *)
Record request : Type := {
  authorization : string;
  user_content : string
}.

(** The outcome of [fetch] followed by [response.json()]: the call
    rejects, or a response arrives with its [ok] flag and a body that
    parses ([Some]) or does not. *)
Inductive fetch_result : Type :=
| FetchRejected
| Response (ok : bool) (json : option value).

(** ** rate-system.js *)

Module RateSystem.

#[local] Open Scope string_scope.
#[local] Open Scope num_scope.

Section Definitions.

Variable NumberToString : num -> string.

(** The key read when the module is loaded; empty when neither the
    environment nor [gpt-key.txt] gives one. *)
Variable GPT_API_KEY : string.

Variable fetch : request -> fetch_result.

Abbreviation ToNumber := (ToNumber NumberToString).
Abbreviation ToString := (ToString NumberToString).

Definition prompt (activitiesText : string) : string :=
  trim ("
You are an experienced college admissions reader.
You will be given a student's extracurricular activities, formatted as one activity per line.
Rate the overall strength of the student's activities on a scale from 1 to 10, where:
- 1 means very weak activities,
- 5 means average/typical activities,
- 10 means exceptionally strong, highly impressive activities for competitive colleges.

Only respond with a single integer between 1 and 10, no explanation.

Student activities:
" ++ activitiesText ++ "
").

(** [(data.choices && data.choices[0] && data.choices[0].message &&
    data.choices[0].message.content || '').trim()]; [None] when reading a
    property of [data] throws or the operand of [.trim()] is not a
    string. *)
Definition message_content (data : value) : option string :=
  match and_get (and_get (and_get (get data "choices") "0") "message") "content" with
  | Some v => option_map trim (as_string (or_else v (VStr "")))
  | None => None
  end.

(** The score read off the reply: [parseInt] of the first run of digits,
    [NaN] without one. *)
Definition reply_score (raw : string) : num :=
  match first_digits raw with
  | Some m => parseInt m
  | None => NaN
  end.

Definition getActivitiesScore (activitiesText : string) : num :=
  if is_empty activitiesText || is_empty (trim activitiesText) then 5.5
  else if is_empty GPT_API_KEY then 5.5
  else
    match fetch {| authorization := "Bearer " ++ GPT_API_KEY;
                   user_content := prompt activitiesText |} with
    | FetchRejected => 5.5
    | Response _ None => 5.5
    | Response ok (Some data) =>
        if negb ok then 5.5
        else
          match message_content data with
          | None => 5.5
          | Some raw =>
              let score := reply_score raw in
              if isNaN score then 5.5
              else Num.min 10 (Num.max 1 score)
          end
    end.

(** *** rateStudent *)

(** The text handed to [getActivitiesScore]. *)
Definition activitiesText (activities : value) : string :=
  match activities with
  | VArr l =>
      join (String (ascii_of_nat 10) EmptyString)
        (map (fun a =>
                let hours :=
                  if truthy (field a "hours")
                  then ToString (field a "hours") ++ " hrs — "
                  else "" in
                (hours ++ ToString (field a "description"))%string)
             (filter (fun a => truthy (and_field a "description")) l))
  | VStr s => s
  | _ => ""
  end.

Definition gpaNum (gpa : value) : value :=
  match as_string gpa with
  | Some s => VNum (parseFloat s)
  | None => or_else gpa (VNum 0)
  end.

Definition gpaMax (weighted : value) : num :=
  if truthy weighted then 5.0 else 4.0.

(** The dimensions below convert [gpaNum], [satNum] and [actNum] to a
    number in their comparisons; they give the value of the dimension when
    the conversion does not throw, and [rateStudent] looks at
    [conversionThrows] before it uses them. *)
Definition gpaNorm (gpa weighted : value) : num :=
  if ToNumber (gpaNum gpa) >? 0
  then Num.min 1 (ToNumber (gpaNum gpa) / gpaMax weighted)
  else 0.

(** [satNum] and [actNum] share their text. *)
Definition testNum (t : value) : value :=
  match as_string t with
  | Some s => VNum (parseInt s)
  | None => or_else t (VNum 0)
  end.

Definition noScore (t : value) : bool :=
  strict_eq (testNum t) (VNum 0) || strict_eq t (VStr "")
  || strict_eq t VNull || strict_eq t VUndef.

Definition isUntaken (sat act : value) : bool :=
  noScore sat && noScore act.

Definition satNorm (sat act : value) : num :=
  if isUntaken sat act then Num.min 1 ((800 - 400) / (1600 - 400))
  else if ToNumber (testNum sat) >? 0
  then Num.min 1 ((ToNumber (testNum sat) - 400) / (1600 - 400))
  else 0.

Definition actNorm (sat act : value) : num :=
  if negb (isUntaken sat act) && (ToNumber (testNum act) >? 0)
  then Num.min 1 ((ToNumber (testNum act) - 1) / (36 - 1))
  else 0.

Definition testNorm (sat act : value) : num :=
  Num.max (satNorm sat act) (actNorm sat act).

(** [(apCourses || []).filter(c => c && c.course)]; calling [.filter] on
    what is not an array throws. *)
Definition validAps (apCourses : value) : option (list value) :=
  option_map (filter (fun c => truthy (and_field c "course")))
             (as_array (or_else apCourses (VArr []))).

Definition apScore (c : value) : num :=
  let s :=
    match as_string (field c "score") with
    | Some str => VNum (parseFloat str)
    | None => or_else (field c "score") (VNum 0)
    end in
  if Number_isFinite s then ToNumber s else 0.

Definition apTotal (aps : list value) : num :=
  fold_left (fun sum c => sum + apScore c) aps 0.

Definition count (aps : list value) : num :=
  Fin (inject_Z (Z.of_nat (List.length aps))).

Definition apAvgScore (aps : list value) : num :=
  if count aps >? 0 then apTotal aps / count aps else 0.

Definition apCountNorm (aps : list value) : num := Num.min 1 (count aps / 10).

Definition apScoreNorm (aps : list value) : num := Num.min 1 (apAvgScore aps / 5).

Definition apNorm (aps : list value) : num :=
  if count aps >? 0 then 0.5 * apCountNorm aps + 0.5 * apScoreNorm aps else 0.

Definition activitiesNorm (text : string) : num :=
  getActivitiesScore text / 10.

(** The weighted combination, scaled to 0-100 and rounded. *)
Definition studentComposite (gpaNorm testNorm apNorm activitiesNorm : num) : num :=
  0.35 * gpaNorm + 0.30 * testNorm + 0.15 * apNorm + 0.20 * activitiesNorm.

Definition studentScore (gpaNorm testNorm apNorm activitiesNorm : num) : num :=
  Num.round (studentComposite gpaNorm testNorm apNorm activitiesNorm * 100).

(** The conversions to a primitive that [rateStudent] evaluates, each of
    which can throw: for every activity kept, the template literal on
    [a.hours] when it is truthy and the concatenation with
    [a.description]; the comparison [gpaNum > 0]; and, when a test is
    reported, the comparisons [satNum > 0] and [actNum > 0]. *)
Definition activityThrows (a : value) : bool :=
  (truthy (field a "hours") && throwsToPrimitive (field a "hours"))
  || throwsToPrimitive (field a "description").

Definition activitiesThrow (activities : value) : bool :=
  match activities with
  | VArr l =>
      existsb activityThrows (filter (fun a => truthy (and_field a "description")) l)
  | _ => false
  end.

Definition testsThrow (sat act : value) : bool :=
  negb (isUntaken sat act)
  && (throwsToPrimitive (testNum sat) || throwsToPrimitive (testNum act)).

Definition conversionThrows (gpa sat act activities : value) : bool :=
  activitiesThrow activities
  || throwsToPrimitive (gpaNum gpa)
  || testsThrow sat act.

(** The promise [rateStudent] returns: [Some] when it resolves, [None]
    when it rejects, which it does when a conversion or the call of
    [.filter] throws. *)
Definition rateStudent (student : value) : option num :=
  let o := or_else student (VObj []) in
  let gpa := field o "gpa" in
  let weighted := default_to (field o "weighted") (VBool true) in
  let sat := field o "sat" in
  let act := field o "act" in
  let apCourses := default_to (field o "apCourses") (VArr []) in
  let activities := default_to (field o "activities") (VStr "") in
  let text := activitiesText activities in
  if conversionThrows gpa sat act activities then None
  else
    match validAps apCourses with
    | None => None
    | Some aps =>
        Some (studentScore (gpaNorm gpa weighted) (testNorm sat act)
                           (apNorm aps) (activitiesNorm text))
    end.

(** *** rateCollege *)

(** The helper [parseNum]; [None] is its [null]. *)
Definition parseNum (val : value) : option num :=
  if strict_eq val VNull || strict_eq val VUndef || strict_eq val (VStr "")
  then None
  else
    let num :=
      match as_string val with
      | Some s => VNum (parseFloat s)
      | None => val
      end in
    if Number_isFinite num then Some (ToNumber num) else None.

Definition acceptanceNorm (acceptance_rate : value) : num :=
  match parseNum acceptance_rate with
  | Some acceptanceRate =>
      if (acceptanceRate >=? 0) && (acceptanceRate <=? 1) then
        let acceptanceNorm := 1 - acceptanceRate in
        if acceptanceRate <? 0.2 then Num.min 1 (acceptanceNorm * 1.2)
        else acceptanceNorm
      else 0
  | None => 0
  end.

Definition collegeSatNorm (sat_50th_percentile : value) : num :=
  match parseNum sat_50th_percentile with
  | Some satScore =>
      if (satScore >=? 400) && (satScore <=? 1600)
      then (satScore - 400) / (1600 - 400)
      else 0
  | None => 0
  end.

Definition collegeActNorm (act_50th_percentile : value) : num :=
  match parseNum act_50th_percentile with
  | Some actScore =>
      if (actScore >=? 1) && (actScore <=? 36)
      then (actScore - 1) / (36 - 1)
      else 0
  | None => 0
  end.

Definition collegeTestNorm (sat_50th_percentile act_50th_percentile : value) : num :=
  Num.max (collegeSatNorm sat_50th_percentile) (collegeActNorm act_50th_percentile).

(** Graduation and retention rates share their text. *)
Definition rateNorm (rate : value) : num :=
  match parseNum rate with
  | Some r => if (r >=? 0) && (r <=? 1) then r else 0
  | None => 0
  end.

Definition graduationNorm (graduation_rate : value) : num := rateNorm graduation_rate.

Definition retentionNorm (retention_rate : value) : num := rateNorm retention_rate.

Definition earningsNorm (median_earnings_10_years : value) : num :=
  match parseNum median_earnings_10_years with
  | Some earnings =>
      if earnings >? 0 then
        let minEarnings : num := 30000 in
        let maxEarnings : num := 150000 in
        Num.min 1 (Num.max 0 ((earnings - minEarnings) / (maxEarnings - minEarnings)))
      else 0
  | None => 0
  end.

Definition enrollmentNorm (enrollment : value) : num :=
  match parseNum enrollment with
  | Some enroll =>
      if enroll >? 0 then
        if (enroll >=? 5000) && (enroll <=? 30000)
        then 0.8 + 0.2 * (1 - Num.abs (enroll - 15000) / 15000)
        else if enroll >? 30000 then 0.7
        else Num.min 0.6 (enroll / 5000)
      else 0
  | None => 0
  end.

Definition ratioNorm (student_faculty_ratio : value) : num :=
  match parseNum student_faculty_ratio with
  | Some ratio =>
      if ratio >? 0 then Num.max 0 (Num.min 1 (1 - (ratio - 5) / 20))
      else 0
  | None => 0
  end.

Definition collegeComposite
    (acceptanceNorm testNorm graduationNorm retentionNorm
       earningsNorm enrollmentNorm ratioNorm : num) : num :=
  0.30 * acceptanceNorm + 0.25 * testNorm + 0.15 * graduationNorm
  + 0.10 * retentionNorm + 0.10 * earningsNorm + 0.05 * enrollmentNorm
  + 0.05 * ratioNorm.

Definition rateCollege (college : value) : num :=
  let o := or_else college (VObj []) in
  Num.round
    (collegeComposite
       (acceptanceNorm (field o "acceptance_rate"))
       (collegeTestNorm (field o "sat_50th_percentile")
                        (field o "act_50th_percentile"))
       (graduationNorm (field o "graduation_rate"))
       (retentionNorm (field o "retention_rate"))
       (earningsNorm (field o "median_earnings_10_years"))
       (enrollmentNorm (field o "enrollment"))
       (ratioNorm (field o "student_faculty_ratio"))
     * 100).

(** *** getAdmissionOdds *)

(** The parsing of one score: [parseFloat] of a string, otherwise the
    value itself or [0] when it is falsy. *)
Definition parseScore (score : value) : value :=
  match as_string score with
  | Some s => VNum (parseFloat s)
  | None => or_else score (VNum 0)
  end.

(** [studentNorm] and [collegeNorm].  [Math.min] converts its argument to
    a number; the function gives the result when that conversion does not
    throw, as for every number and string. *)
Definition scoreNorm (score : value) : num :=
  Num.max 0 (Num.min 100 (ToNumber (parseScore score))).

Definition delta (studentScore collegeScore : value) : num :=
  scoreNorm studentScore - scoreNorm collegeScore.

(** The odds before the final rounding, as a function of [delta]; the
    linear value the source first assigns to [odds] is overwritten before
    any use. *)
Definition oddsOfDelta (delta : num) : num :=
  let baseOdds : num := 50 in
  let deltaMultiplier : num := 1.5 in
  let sigmoidFactor : num := 0.8 in
  let normalizedDelta := delta / 50 in
  let sigmoidDelta :=
    (normalizedDelta / (1 + Num.abs normalizedDelta * sigmoidFactor)) * 50 in
  let odds := baseOdds + sigmoidDelta * deltaMultiplier in
  Num.max 2 (Num.min 98 odds).

Definition getAdmissionOdds (studentScore collegeScore : value) : num :=
  Num.round (oddsOfDelta (delta studentScore collegeScore)).

End Definitions.

End RateSystem.

Export RateSystem.

(** ** getAdmissionOdds on doubles

    The odds transform divides and multiplies, and every operation of a
    double rounds to the nearest double.  This module is
    [getAdmissionOdds], for scores given as numbers, on the binary64
    numbers of the kernel ([PrimFloat]), whose operations are those of
    IEEE 754. *)

Module Binary64.

Import PrimFloat.
#[local] Open Scope float_scope.
#[local] Set Warnings "-inexact-float".

(** The double of an integer below 2^53 in magnitude. *)
Definition ofZ (z : Z) : float :=
  if (z <? 0)%Z then - of_uint63 (Uint63.of_Z (- z)) else of_uint63 (Uint63.of_Z z).

(** A finite double is [m * 2 ^ k] for an integer [m] below 2^53 in
    magnitude: [frshiftexp] gives the exponent, [normfr_mantissa] the
    53 bits. *)
Definition decompose (x : float) : option (Z * Z) :=
  if is_nan x || is_infinity x then None
  else
    let '(f, e) := frshiftexp x in
    let m := Uint63.to_Z (normfr_mantissa f) in
    Some (if get_sign x then (- m)%Z else m,
          (Uint63.to_Z e - FloatOps.shift - FloatOps.prec)%Z).


(** [Math.min] and [Math.max]: [NaN] when an argument is; the negative
    zero is below the positive one. *)
Definition Math_min (x y : float) : float :=
  if is_nan x || is_nan y then nan
  else if x <? y then x
  else if y <? x then y
  else if get_sign x then x else y.

Definition Math_max (x y : float) : float :=
  if is_nan x || is_nan y then nan
  else if x <? y then y
  else if y <? x then x
  else if get_sign x then y else x.

(** [Math.round]: the integer nearest to [x], a tie going up, computed
    exactly: the floor of [m * 2 ^ k + 1/2].  A result of zero keeps the
    sign of [x]; a double of 2^52 or more in magnitude is an integer already. *)
Definition Math_round (x : float) : float :=
  match decompose x with
  | Some (m, k) =>
      if (0 <=? k)%Z then x
      else
        let n := ((m + 2 ^ (- k - 1)) / 2 ^ (- k))%Z in
        if (n =? 0)%Z then (if get_sign x then neg_zero else zero) else ofZ n
  | None => x
  end.

(** [score || 0] on a number: zero for [NaN] and for both zeros. *)
Definition parseScore (score : float) : float :=
  if is_nan score || is_zero score then 0 else score.

Definition scoreNorm (score : float) : float :=
  Math_max 0 (Math_min 100 (parseScore score)).

Definition delta (studentScore collegeScore : float) : float :=
  scoreNorm studentScore - scoreNorm collegeScore.

Definition oddsOfDelta (delta : float) : float :=
  let baseOdds := 50 in
  let deltaMultiplier := 1.5 in
  let sigmoidFactor := 0.8 in
  let normalizedDelta := delta / 50 in
  let sigmoidDelta :=
    (normalizedDelta / (1 + abs normalizedDelta * sigmoidFactor)) * 50 in
  let odds := baseOdds + sigmoidDelta * deltaMultiplier in
  Math_max 2 (Math_min 98 odds).

Definition getAdmissionOdds (studentScore collegeScore : float) : float :=
  Math_round (oddsOfDelta (delta studentScore collegeScore)).

(** *** Sample inputs: two doubles next to each other, and the score 0 *)


End Binary64.

(** ** Notions the properties are stated with *)

#[local] Open Scope string_scope.

(** The odds before the clamp to [2, 98] and the rounding, as a rational
    function of a finite [delta]. *)
Definition unclampedOdds (d : Q) : Q :=
  50 + (d / 50) / (1 + Qabs (d / 50) * 0.8) * 50 * 1.5.







(** A test score that is absent ([undefined] or [null]), empty or zero:
    the number zero, or a string that [parseInt] reads as zero. *)
Definition absent_empty_or_zero (t : value) : bool :=
  match t with
  | VUndef | VNull => true
  | VStr s => is_empty s || Num.eqb (parseInt s) 0
  | VNum x => Num.eqb x 0
  | _ => false
  end.

(** The conversions of [rateStudent] on the properties of a student. *)
Definition studentThrows (student : value) : bool :=
  let o := or_else student (VObj []) in
  conversionThrows (field o "gpa") (field o "sat") (field o "act")
                   (default_to (field o "activities") (VStr "")).

(** [apCourses] is absent, falsy or an array: the inputs on which
    [.filter] can be called. *)
Definition apCourses_ok (student : value) : bool :=
  match default_to (field (or_else student (VObj [])) "apCourses") (VArr []) with
  | VArr _ => true
  | v => negb (truthy v)
  end.

(** *** Sample inputs *)

(** Number formatting for the closed examples below; none of them formats
    a number. *)
Definition noNumberToString (x : num) : string := "".

(** A world without a reachable capability. *)
Definition fetchRejects (r : request) : fetch_result := FetchRejected.

(** A successful response whose message content is [s]. *)
Definition reply (s : string) : value :=
  VObj [("choices", VArr [VObj [("message", VObj [("content", VStr s)])]])].

Definition fetchReplies (s : string) (r : request) : fetch_result :=
  Response true (Some (reply s)).

(** [{gpa: 4, weighted: false, sat: null, act: null, apCourses: [],
    activities: ''}]. *)
Definition untestedStudent : value :=
  VObj [("gpa", VNum 4); ("weighted", VBool false); ("sat", VNull);
        ("act", VNull); ("apCourses", VArr []); ("activities", VStr "")].

(** [{apCourses: [{course: 'Calc BC', score: -100}]}]. *)
Definition negativeAp : value :=
  VObj [("course", VStr "Calc BC"); ("score", VNum (-100))].

Definition negativeApStudent : value :=
  VObj [("apCourses", VArr [negativeAp])].

(** ** More of the runtime: splitting and assignment *)

Definition dquote : ascii := ascii_of_nat 34.
Definition comma : ascii := ascii_of_nat 44.
Definition newline : ascii := ascii_of_nat 10.

(** [s.includes(c)] for a one-character [c]. *)
Fixpoint includes (c : ascii) (s : string) : bool :=
  match s with
  | String a r => Ascii.eqb a c || includes c r
  | EmptyString => false
  end.

(** [s.split(c)] for a one-character separator; the result is never
    empty. *)
Fixpoint split (c : ascii) (s : string) : list string :=
  match s with
  | String a r =>
      if Ascii.eqb a c then EmptyString :: split c r
      else match split c r with
           | x :: l => String a x :: l
           | [] => [String a EmptyString]
           end
  | EmptyString => [EmptyString]
  end.

(** The replacement of every double quote by two: [s.replace] with the
    global pattern of one quote. *)
Fixpoint doubleQuotes (s : string) : string :=
  match s with
  | String a r =>
      if Ascii.eqb a dquote then String dquote (String dquote (doubleQuotes r))
      else String a (doubleQuotes r)
  | EmptyString => EmptyString
  end.

(** The replacement of every pair of double quotes by one: the pairs are
    taken from the left and do not overlap. *)
Fixpoint undoubleQuotes (s : string) : string :=
  match s with
  | String a r =>
      match r with
      | String b r' =>
          if Ascii.eqb a dquote && Ascii.eqb b dquote
          then String dquote (undoubleQuotes r')
          else String a (undoubleQuotes r)
      | EmptyString => s
      end
  | EmptyString => EmptyString
  end.

(** [s.startsWith(q)] and [s.endsWith(q)] for the double quote [q]. *)
Definition startsWithQuote (s : string) : bool :=
  match s with
  | String a _ => Ascii.eqb a dquote
  | EmptyString => false
  end.

Fixpoint endsWithQuote (s : string) : bool :=
  match s with
  | String a EmptyString => Ascii.eqb a dquote
  | String _ r => endsWithQuote r
  | EmptyString => false
  end.

Fixpoint dropLast (s : string) : string :=
  match s with
  | String _ EmptyString => EmptyString
  | String a r => String a (dropLast r)
  | EmptyString => EmptyString
  end.

(** [s.slice(1, -1)]. *)
Definition slice_1_m1 (s : string) : string :=
  match s with
  | String _ r => dropLast r
  | EmptyString => EmptyString
  end.

(** [o.k = v] on the own properties of an object, for a key other than
    [__proto__]: the property is replaced where it is, or added last. *)
Fixpoint assign (k : string) (v : value) (ps : list (string * value)) :
    list (string * value) :=
  match ps with
  | (k', v') :: r =>
      if String.eqb k k' then (k, v) :: r else (k', v') :: assign k v r
  | [] => [(k, v)]
  end.

(** [o.k = v] on an object.  The values assigned to in the sources are
    the rows of a parsed file, which are objects; assignment to another
    kind of value is not modelled, and leaves the value as it is. *)
Definition setProp (o : value) (k : string) (v : value) : value :=
  match o with
  | VObj ps => VObj (assign k v ps)
  | _ => o
  end.



(** [row[header] = text] for a string [text], as the parsers fill a row.
    Under the key [__proto__] a row without an own property of that name
    runs the setter of [Object.prototype], which ignores a value that is
    not an object: the row stays as it is. *)
Definition assignText (header text : string) (row : list (string * value)) :
    list (string * value) :=
  if String.eqb header "__proto__" && negb (has_own header row) then row
  else assign header (VStr text) row.

(** [csvText.split('\n').filter(line => line.trim())], the first
    statement of [parseCSV] in server.js and in the rating script. *)
Definition nonBlankLines (csvText : string) : list string :=
  filter (fun line => negb (is_empty (trim line))) (split newline csvText).

(** ** server.js: the CSV helpers *)

Module Csv.

(** The quotes around a value are removed and the doubled quotes inside
    undone: the text shared by [parseCSVLine] and [parseCSVValue]. *)
Definition stripQuotes (value : string) : string :=
  if startsWithQuote value && endsWithQuote value
  then undoubleQuotes (slice_1_m1 value)
  else value.

Section Escape.

Variable NumberToString : num -> string.

Definition escapeCSV (value : value) : string :=
  match value with
  | VNull | VUndef => ""
  | _ =>
      let stringValue := ToString NumberToString value in
      if includes comma stringValue || includes dquote stringValue
         || includes newline stringValue
      then String dquote (doubleQuotes stringValue ++ String dquote EmptyString)
      else stringValue
  end.

End Escape.

(** [parseCSVValue] on a string. *)
Definition parseCSVValue (value : string) : string :=
  if is_empty value then "" else stripQuotes value.

(** The loop of [parseCSVLine] from position [j] on: [line] is what is
    left of the line, [rest'] what is left after [j++]. *)
Fixpoint parseCSVLine_from (line current : string) (inQuotes : bool)
    (values : list string) : list string :=
  match line with
  | String char rest =>
      if Ascii.eqb char dquote then
        match rest with
        | String next rest' =>
            if Ascii.eqb next dquote && inQuotes
            then parseCSVLine_from rest' (current ++ String dquote EmptyString)
                                   inQuotes values
            else parseCSVLine_from rest current (negb inQuotes) values
        | EmptyString => parseCSVLine_from rest current (negb inQuotes) values
        end
      else if Ascii.eqb char comma && negb inQuotes then
        parseCSVLine_from rest EmptyString inQuotes
                          (values ++ [stripQuotes (trim current)])
      else
        parseCSVLine_from rest (current ++ String char EmptyString) inQuotes values
  | EmptyString => values ++ [stripQuotes (trim current)]
  end.

Definition parseCSVLine (line : string) : list string :=
  parseCSVLine_from line EmptyString false [].

(** The loop that [readAccounts] runs over one line of the accounts
    file. *)
Fixpoint accountValues_from (line current : string) (inQuotes : bool)
    (values : list string) : list string :=
  match line with
  | String char rest =>
      if Ascii.eqb char dquote then
        match rest with
        | String next rest' =>
            if inQuotes && Ascii.eqb next dquote
            then accountValues_from rest' (current ++ String dquote EmptyString)
                                    inQuotes values
            else accountValues_from rest current (negb inQuotes) values
        | EmptyString => accountValues_from rest current (negb inQuotes) values
        end
      else if Ascii.eqb char comma && negb inQuotes then
        accountValues_from rest EmptyString inQuotes
                           (values ++ [parseCSVValue (trim current)])
      else
        accountValues_from rest (current ++ String char EmptyString) inQuotes values
  | EmptyString => values ++ [parseCSVValue (trim current)]
  end.

Definition accountValues (line : string) : list string :=
  accountValues_from line EmptyString false [].

(** [headers.forEach((header, index) => { row[header] = values[index] || '' })]
    of [parseCSV], from column [index] on. *)
Fixpoint rowFrom (headers : list string) (index : nat) (values : list string)
    (row : list (string * value)) : list (string * value) :=
  match headers with
  | header :: rest =>
      rowFrom rest (S index) values
              (assignText header (nth index values EmptyString) row)
  | [] => row
  end.

(** [parseCSV]: the first line that is not blank gives the headers, each
    later one that has a value for every header gives a row. *)
Definition parseCSV (csvText : string) : list value :=
  match nonBlankLines csvText with
  | [] => []
  | first :: rest =>
      let headers := parseCSVLine first in
      map (fun values => VObj (rowFrom headers 0 values []))
          (filter (fun values => (List.length headers <=? List.length values)%nat)
                  (map parseCSVLine rest))
  end.

End Csv.

(** ** server.js: POST /api/profile *)

Module Profile.

(** What the handler answers: the status and the JSON body. *)
Record response : Type := {
  status : Z;
  body : value
}.

Section Handler.

Variable NumberToString : num -> string.
Variable GPT_API_KEY : string.
Variable fetch : request -> fetch_result.

(** [saveAccount], which reads and writes the accounts file and reports
    whether the write went through. *)
Variable saveAccount : value -> bool.

(** The argument of [rateStudent]. *)
Definition studentOf (profileData : value) : value :=
  VObj [("gpa", field profileData "gpa");
        ("weighted", field profileData "weighted");
        ("sat", field profileData "sat");
        ("act", field profileData "act");
        ("apCourses", or_else (field profileData "apCourses") (VArr []));
        ("activities", or_else (field profileData "activities") (VArr []))].

(** The variable [rating] after the inner [try]: the score when
    [rateStudent] resolves to a number that is not [NaN], [null] when it
    does not or when it rejects. *)
Definition ratingOf (profileData : value) : value :=
  match rateStudent NumberToString GPT_API_KEY fetch (studentOf profileData) with
  | Some calculatedRating =>
      if isNaN calculatedRating then VNull else VNum calculatedRating
  | None => VNull
  end.

Definition accountData (profileData : value) : value :=
  VObj [("user_id", field profileData "user_id");
        ("name", or_else (field profileData "name") (VStr ""));
        ("grade", or_else (field profileData "grade") (VStr ""));
        ("gpa", or_else (field profileData "gpa") (VStr ""));
        ("weighted",
         if strict_eq (field profileData "weighted") VUndef then VBool true
         else field profileData "weighted");
        ("sat", or_else (field profileData "sat") (VStr ""));
        ("act", or_else (field profileData "act") (VStr ""));
        ("psat", or_else (field profileData "psat") (VStr ""));
        ("majors", or_else (field profileData "majors") (VArr []));
        ("ap_courses", or_else (field profileData "apCourses") (VArr []));
        ("activities",
         match as_array (field profileData "activities") with
         | Some _ => field profileData "activities"
         | None => VArr []
         end);
        ("interests", or_else (field profileData "interests") (VArr []));
        ("career_goals",
         or_else (or_else (field profileData "careerGoals")
                          (field profileData "career_goals")) (VStr ""));
        ("rating", ratingOf profileData)].

Definition failed : response :=
  {| status := 500; body := VObj [("error", VStr "Failed to save profile")] |}.

(** The handler on the request body; reading [user_id] off a body that is
    [undefined] or [null] throws into the outer [catch]. *)
Definition postProfile (profileData : value) : response :=
  match get profileData "user_id" with
  | None => failed
  | Some user_id =>
      if negb (truthy user_id)
      then {| status := 400; body := VObj [("error", VStr "user_id is required")] |}
      else if saveAccount (accountData profileData)
      then {| status := 200;
              body := VObj [("success", VBool true);
                            ("message", VStr "Profile saved successfully")] |}
      else failed
  end.

End Handler.

End Profile.

(** ** The rating script: parseCSV, writeCSV and main

    The script that requires ['../rate-system'], reads the enriched
    catalogue and writes [university_data.csv].  Reading and writing the
    files is outside the model: [main] is a function of the text read to
    the text written. *)

Module Script.

(** The loop of [parseCSV] over one line. *)
Fixpoint lineValues_from (line current : string) (inQuotes : bool)
    (values : list string) : list string :=
  match line with
  | String char rest =>
      if Ascii.eqb char dquote then
        lineValues_from rest current (negb inQuotes) values
      else if Ascii.eqb char comma && negb inQuotes then
        lineValues_from rest EmptyString inQuotes (values ++ [trim current])
      else
        lineValues_from rest (current ++ String char EmptyString) inQuotes values
  | EmptyString => values ++ [trim current]
  end.

Definition lineValues (line : string) : list string :=
  lineValues_from line EmptyString false [].

(** The value stored under the header of column [index]:
    [values[index] || ''], without the quotes around it if it has them. *)
Definition cell (values : list string) (index : nat) : string :=
  let value := nth index values EmptyString in
  if startsWithQuote value && endsWithQuote value then slice_1_m1 value
  else value.

(** [headers.forEach((header, index) => ...)] from column [index] on. *)
Fixpoint fillRow (headers : list string) (index : nat) (values : list string)
    (row : list (string * value)) : list (string * value) :=
  match headers with
  | header :: rest =>
      fillRow rest (S index) values (assignText header (cell values index) row)
  | [] => row
  end.

Definition rowsOf (headers : list string) (lines : list string) : list value :=
  map (fun values => VObj (fillRow headers 0 values []))
      (filter (fun values => (List.length headers <=? List.length values)%nat)
              (map lineValues lines)).

(** [parseCSV]: an empty array when no line is left, otherwise the object
    of the headers and the rows. *)
Definition parseCSV (csvText : string) : value :=
  match nonBlankLines csvText with
  | [] => VArr []
  | first :: rest =>
      let headers := map trim (split comma first) in
      VObj [("headers", VArr (map VStr headers));
            ("rows", VArr (rowsOf headers rest))]
  end.

Section Main.

Variable NumberToString : num -> string.

(** [String(row[header] || '')] on a row that is not [undefined] or
    [null]; [None] when the conversion throws.  A plain object without an
    own [__proto__] reads [Object.prototype] under that key, whose text is
    ["[object Object]"].  A header that names a method of a prototype
    reads that method from a row without an own property of the name; the
    text of a function is the implementation's and is not modelled: the
    rows [main] writes own every header but [__proto__]. *)
Definition cellString (row : value) (header : string) : option string :=
  match row with
  | VObj ps =>
      if String.eqb header "__proto__" && negb (has_own header ps)
      then Some "[object Object]"
      else
        let v := or_else (lookup header ps) (VStr "") in
        if throwsToPrimitive v then None else Some (ToString NumberToString v)
  | _ =>
      let v := or_else (field row header) (VStr "") in
      if throwsToPrimitive v then None else Some (ToString NumberToString v)
  end.

(** The escaping of [writeCSV]. *)
Definition quoted (value : string) : string :=
  if includes comma value || includes dquote value || includes newline value
  then String dquote (doubleQuotes value ++ String dquote EmptyString)
  else value.

(** One value of a row as [writeCSV] writes it. *)
Definition csvCell (row : value) (header : string) : option string :=
  option_map quoted (cellString row header).

Fixpoint csvCells (row : value) (headers : list string) : option (list string) :=
  match headers with
  | header :: rest =>
      match csvCell row header, csvCells row rest with
      | Some c, Some cs => Some (c :: cs)
      | _, _ => None
      end
  | [] => Some []
  end.

(** The line of one row; reading a property of a row that is [undefined]
    or [null] throws, which happens as soon as there is a header. *)
Definition rowLine (headers : list string) (row : value) : option string :=
  match headers, row with
  | _ :: _, VUndef | _ :: _, VNull => None
  | _, _ => option_map (join ",") (csvCells row headers)
  end.

Fixpoint rowLines (headers : list string) (rows : list value) :
    option (list string) :=
  match rows with
  | row :: rest =>
      match rowLine headers row, rowLines headers rest with
      | Some line, Some lines => Some (line :: lines)
      | _, _ => None
      end
  | [] => Some []
  end.

(** The text [writeCSV] hands to [fs.writeFileSync]; [None] when it
    throws before, which the template literal of the header line does on
    a header whose conversion throws.  A header is used through its text,
    in the header line and as a property key. *)
Definition writeCSV (headers rows : list value) : option string :=
  if existsb throwsToPrimitive headers then None
  else
    let keys := map (ToString NumberToString) headers in
    option_map
      (fun lines =>
         join (String newline EmptyString)
           (join ","
              (map (fun h => String dquote (h ++ String dquote EmptyString)) keys)
            :: lines))
      (rowLines keys rows).

(** The loop of [main]: every college gets its rating. *)
Definition rateRows (rows : list value) : list value :=
  map (fun college =>
         setProp college "rating" (VNum (rateCollege NumberToString college)))
      rows.

(** [headers.includes('rating')]. *)
Definition hasRating (headers : list value) : bool :=
  existsb (fun h => strict_eq h (VStr "rating")) headers.

(** [main]: the text written to the output file; [None] when it throws
    before it writes.  [parseCSV] gives either its empty array, whose
    [rows] is [undefined] so that [rows.length] throws, or arrays of
    headers and rows.  The statistics that [main] prints after the file is
    written are not part of the model. *)
Definition main (csvText : string) : option string :=
  let parsed := parseCSV csvText in
  let headers := field parsed "headers" in
  let rows := field parsed "rows" in
  match as_array rows, as_array headers with
  | Some rows, Some headers =>
      let rows := rateRows rows in
      let headers :=
        if hasRating headers then headers else (headers ++ [VStr "rating"])%list in
      writeCSV headers rows
  | _, _ => None
  end.

End Main.

End Script.

(** ** Notions the further properties are stated with *)

(** Both tests are reported and both are below the floor of their scale:
    an SAT between 0 and 400 and an ACT between 0 and 1. *)
Definition belowBothFloors (x y : num) : bool :=
  Num.gtb x 0 && Num.ltb x 400 && Num.gtb y 0 && Num.ltb y 1.

(** The capability did not give a score: the call rejected, the body did
    not parse, the response was not a success, or its message content
    could not be read or holds no digit. *)
Definition capabilityFailed (r : fetch_result) : bool :=
  match r with
  | FetchRejected => true
  | Response _ None => true
  | Response false _ => true
  | Response true (Some data) =>
      match message_content data with
      | None => true
      | Some raw =>
          match first_digits raw with
          | None => true
          | Some _ => false
          end
      end
  end.

(** The eight properties [rateCollege] destructures. *)
Definition collegeKeys : list string :=
  ["acceptance_rate"; "sat_50th_percentile"; "act_50th_percentile";
   "graduation_rate"; "retention_rate"; "median_earnings_10_years";
   "enrollment"; "student_faculty_ratio"].

(** A cell of a CSV row as the number it reads as; the empty cell
    stays. *)
Definition asNumber (v : value) : value :=
  match v with
  | VStr s => if is_empty s then v else VNum (parseFloat s)
  | _ => v
  end.

(** A row of string values as [writeAccounts] and [writeCSV] join it. *)
Definition writeRow (NumberToString : num -> string) (vs : list string) : string :=
  join "," (map (fun s => Csv.escapeCSV NumberToString (VStr s)) vs).

(** A value that reading a line gives back as it is: no white space at
    its ends, and not both starting and ending with a double quote. *)
Definition survivesRead (s : string) : bool :=
  String.eqb (trim s) s && negb (startsWithQuote s && endsWithQuote s).

(** [apCourses] of the request body is falsy or an array. *)
Definition bodyCoursesOk (profileData : value) : bool :=
  match field profileData "apCourses" with
  | VArr _ => true
  | v => negb (truthy v)
  end.

(** A conversion of [rateStudent] throws on the properties of the request
    body. *)
Definition bodyThrows (profileData : value) : bool :=
  conversionThrows (field profileData "gpa") (field profileData "sat")
                   (field profileData "act")
                   (or_else (field profileData "activities") (VArr [])).

Definition isObject (v : value) : bool :=
  match v with VObj _ => true | _ => false end.

(** An object whose own properties all convert to a primitive. *)
Definition convertibleRow (row : value) : bool :=
  match row with
  | VObj ps => forallb (fun p => negb (throwsToPrimitive (snd p))) ps
  | _ => false
  end.











(** Every character of [s] passes the test [p]. *)
Fixpoint allChars (p : ascii -> bool) (s : string) : bool :=
  match s with
  | String a r => p a && allChars p r
  | EmptyString => true
  end.

(** [s] starts with a digit. *)
Definition startsWithDigit (s : string) : bool :=
  match s with
  | String a _ => is_digit a
  | EmptyString => false
  end.

(** *** More sample inputs *)

(** A value holding a comma and a value holding a double quote. *)
Definition sampleRow : list string :=
  ["Smith, Ann"; String dquote "Ann" ++ String dquote " Smith"; ""; "3.9"].



(** The no-break space U+00A0 and the byte order mark U+FEFF, in UTF-8. *)
Definition noBreakSpace : string :=
  String (ascii_of_nat 194) (String (ascii_of_nat 160) "").

Definition byteOrderMark : string :=
  String (ascii_of_nat 239) (String (ascii_of_nat 187) (String (ascii_of_nat 191) "")).

(** A request body whose [apCourses] is a string. *)
Definition sampleBody : value :=
  VObj [("user_id", VStr "u1"); ("gpa", VNum 3.8); ("apCourses", VStr "Calc BC")].

(** [{toString: 1}], an object that converts to no primitive. *)
Definition unconvertible : value := VObj [("toString", VNum 1)].

(** A row of the catalogue, as strings. *)
Definition sampleCollege : list (string * value) :=
  [("name", VStr "Example College"); ("acceptance_rate", VStr "0.05");
   ("sat_50th_percentile", VStr "1500"); ("enrollment", VStr "15000")].

(** * Properties *)

(** ** Arithmetic of [num] on finite values *)

Module NumFacts.

#[local] Open Scope Q_scope.

Lemma ltb_Fin (a b : Q) : Num.ltb (Fin a) (Fin b) = true <-> a < b.
Proof.
  unfold Num.ltb. destruct (Qcompare_spec a b) as [E | L | G]; split; intro H;
    try reflexivity; try discriminate; try assumption.
  - rewrite E in H. now apply Qlt_irrefl in H.
  - exfalso. apply (Qlt_irrefl a). now apply Qlt_trans with b.
Qed.

Lemma ltb_Fin_false (a b : Q) : Num.ltb (Fin a) (Fin b) = false <-> b <= a.
Proof.
  split.
  - intro H. apply Qnot_lt_le. intro L. apply ltb_Fin in L. congruence.
  - intro H. destruct (Num.ltb (Fin a) (Fin b)) eqn:E; trivial.
    apply ltb_Fin in E. exfalso. now apply (Qlt_not_le a b).
Qed.

Lemma eqb_Fin (a b : Q) : Num.eqb (Fin a) (Fin b) = true <-> a == b.
Proof. apply Qeq_bool_iff. Qed.

Lemma leb_Fin (a b : Q) : Num.leb (Fin a) (Fin b) = true <-> a <= b.
Proof.
  unfold Num.leb. rewrite orb_true_iff, ltb_Fin, eqb_Fin. split.
  - intros [H | H]; [now apply Qlt_le_weak | rewrite H; apply Qle_refl].
  - intro H. apply Qle_lteq in H. exact H.
Qed.

Lemma gtb_Fin (a b : Q) : Num.gtb (Fin a) (Fin b) = true <-> b < a.
Proof. apply ltb_Fin. Qed.

Lemma geb_Fin (a b : Q) : Num.geb (Fin a) (Fin b) = true <-> b <= a.
Proof. apply leb_Fin. Qed.

(** [Math.min] and [Math.max] of finite numbers pick one of the two. *)
Lemma min_Fin (a b : Q) :
  (b < a /\ Num.min (Fin a) (Fin b) = Fin b)
  \/ (a <= b /\ Num.min (Fin a) (Fin b) = Fin a).
Proof.
  unfold Num.min; simpl isNaN; simpl orb.
  destruct (Num.ltb (Fin b) (Fin a)) eqn:E.
  - left. split; trivial. now apply ltb_Fin.
  - right. split; trivial. now apply ltb_Fin_false.
Qed.

Lemma max_Fin (a b : Q) :
  (a < b /\ Num.max (Fin a) (Fin b) = Fin b)
  \/ (b <= a /\ Num.max (Fin a) (Fin b) = Fin a).
Proof.
  unfold Num.max; simpl isNaN; simpl orb.
  destruct (Num.ltb (Fin a) (Fin b)) eqn:E.
  - left. split; trivial. now apply ltb_Fin.
  - right. split; trivial. now apply ltb_Fin_false.
Qed.

(** Division of finite numbers by a positive one stays finite. *)
Lemma div_Fin_pos (a b : Q) : 0 < b -> Num.div (Fin a) (Fin b) = Fin (a / b).
Proof.
  intro H. unfold Num.div.
  destruct (Qcompare_spec b 0) as [E | L | G]; trivial.
  rewrite E in H. now apply Qlt_irrefl in H.
Qed.

(** Rounding brackets its argument. *)
Lemma round_bounds (q : Q) (lo hi : Z) :
  inject_Z lo <= q -> q <= inject_Z hi ->
  (lo <= Qfloor (q + 0.5) <= hi)%Z.
Proof.
  intros Hlo Hhi. split.
  - rewrite <- (Qfloor_Z lo). apply Qfloor_resp_le. lra.
  - assert (H : inject_Z (Qfloor (q + 0.5)) < inject_Z (hi + 1)).
    { apply Qle_lt_trans with (q + 0.5); [apply Qfloor_le |].
      rewrite inject_Z_plus. change (inject_Z 1) with 1. lra. }
    rewrite <- Zlt_Qlt in H. lia.
Qed.

Lemma round_int_in (q : Q) (lo hi : Z) :
  inject_Z lo <= q -> q <= inject_Z hi ->
  int_in lo hi (Num.round (Fin q)).
Proof.
  intros Hlo Hhi. exists (Qfloor (q + 0.5)). split; trivial.
  now apply round_bounds.
Qed.

End NumFacts.

Import NumFacts.

(** Splits a [Math.min] or [Math.max] of two finite numbers into its two
    cases. *)
Ltac split_minmax :=
  match goal with
  | |- context [Num.min (Fin ?a) (Fin ?b)] =>
      let H := fresh "Hmin" in let E := fresh "Emin" in
      destruct (min_Fin a b) as [[H E] | [H E]]; rewrite E
  | |- context [Num.max (Fin ?a) (Fin ?b)] =>
      let H := fresh "Hmax" in let E := fresh "Emax" in
      destruct (max_Fin a b) as [[H E] | [H E]]; rewrite E
  end.

(** Turns a comparison of finite numbers found true or false into the
    inequality it decides. *)
Ltac cmp_to_Q :=
  repeat match goal with
  | H : Num.ltb (Fin _) (Fin _) = true |- _ => apply ltb_Fin in H
  | H : Num.ltb (Fin _) (Fin _) = false |- _ => apply ltb_Fin_false in H
  | H : Num.gtb (Fin _) (Fin _) = true |- _ => apply gtb_Fin in H
  | H : Num.gtb (Fin _) (Fin _) = false |- _ => apply ltb_Fin_false in H
  | H : Num.leb (Fin _) (Fin _) = true |- _ => apply leb_Fin in H
  | H : Num.geb (Fin _) (Fin _) = true |- _ => apply geb_Fin in H
  | H : _ && _ = true |- _ => apply andb_prop in H; destruct H
  end.

(** Names every quotient of the goal and records the product that defines
    it, leaving linear arithmetic. *)
Ltac name_quotients :=
  repeat match goal with
  | |- context [Qdiv ?x ?c] =>
      let t := fresh "t" in let E := fresh "Et" in
      assert (E : Qdiv x c * c == x) by (field; discriminate);
      set (t := Qdiv x c) in *; clearbody t
  end.

(** Evaluates the arithmetic of finite numbers whose divisors are positive
    constants. *)
Ltac fin_arith :=
  cbn [Num.sub Num.add Num.neg Num.mul Num.abs];
  repeat (rewrite div_Fin_pos by reflexivity;
          cbn [Num.sub Num.add Num.neg Num.mul Num.abs]).

Ltac finish_within :=
  repeat split_minmax; eexists; (split; [reflexivity |]); name_quotients; lra.

(** Uses or drops each implication among the hypotheses, according to
    whether linear arithmetic proves its premise. *)
Ltac use_cases :=
  repeat match goal with
  | H : ?P -> _ |- _ =>
      let X := fresh in assert (X : P) by lra; specialize (H X); clear X
  | H : ?P -> _ |- _ => clear H
  end.

(** ** Reading properties and replies *)

(** On a truthy value, [field] is the property read itself: it does not
    throw. *)
Lemma field_get (v : value) (k : string) :
  truthy v = true -> get v k = Some (field v k).
Proof.
  unfold field. destruct v; simpl; try discriminate; intros _;
    repeat match goal with
    | |- context [if ?b then _ else _] => destruct b
    | |- context [match ?o with Some _ => _ | None => _ end] => destruct o
    end; reflexivity.
Qed.

(** The operand of the destructurings, [v || {}], is truthy. *)
Lemma or_else_object_truthy (v : value) : truthy (or_else v (VObj [])) = true.
Proof. unfold or_else. destruct (truthy v) eqn:E; [exact E | reflexivity]. Qed.

Lemma digit_not_ws (c : ascii) : is_digit c = true -> is_ws c = false.
Proof.
  unfold is_digit, is_ws. intro H. apply andb_prop in H. destruct H as [H1 H2].
  apply Z.leb_le in H1. apply Z.leb_le in H2.
  apply orb_false_iff. split.
  - apply andb_false_iff. right. apply Z.leb_gt. lia.
  - apply Z.eqb_neq. lia.
Qed.

(** A byte below 128 that is not white space starts no white-space
    character: trimming stops at it, on both sides. *)
Lemma trimStart_plain (c : ascii) (r : string) :
  is_ws c = false -> (code c < 128)%Z -> trimStart (String c r) = String c r.
Proof.
  intros W L. cbn [trimStart]. rewrite W.
  assert (W2 : forall d, is_ws2 c d = false).
  { intro d. unfold is_ws2. apply andb_false_iff. left. apply Z.eqb_neq. lia. }
  assert (W3 : forall d e, is_ws3 c d e = false).
  { intros d e. unfold is_ws3.
    assert (N : forall k, (128 <= k)%Z -> (code c =? k)%Z = false)
      by (intros k Hk; apply Z.eqb_neq; lia).
    rewrite !N by lia. reflexivity. }
  destruct r as [| d [| e r2]]; trivial.
  - now rewrite W2.
  - now rewrite W2, W3.
Qed.


Lemma digit_below_128 (c : ascii) : is_digit c = true -> (code c < 128)%Z.
Proof.
  unfold is_digit. intro H. apply andb_prop in H. destruct H as [_ H].
  apply Z.leb_le in H. lia.
Qed.

Lemma digit_not_sign (c : ascii) (r : string) :
  is_digit c = true -> scan_sign (String c r) = (1%Z, String c r).
Proof.
  destruct c as [[] [] [] [] [] [] [] []]; try discriminate; reflexivity.
Qed.

Lemma scan_digits_nonneg (s : string) (acc : Z) (n : nat) :
  (0 <= acc)%Z ->
  exists (v : Z) (k : nat) (rest : string),
    scan_digits acc n s = (v, k, rest) /\ (0 <= v)%Z /\ (n <= k)%nat.
Proof.
  revert acc n. induction s as [| c r IH]; intros acc n Hacc; simpl.
  - exists acc, n, EmptyString. repeat split; trivial.
  - destruct (is_digit c) eqn:D.
    + destruct (IH (10 * acc + digit_val c)%Z (S n)) as (v & k & rest & E & Hv & Hk).
      { unfold is_digit in D. apply andb_prop in D. destruct D as [D _].
        apply Z.leb_le in D. unfold digit_val. lia. }
      exists v, k, rest. repeat split; trivial. lia.
    + exists acc, n, (String c r). repeat split; trivial.
Qed.

Lemma first_digits_head (s m : string) :
  first_digits s = Some m -> exists c r, m = String c r /\ is_digit c = true.
Proof.
  induction s as [| c r IH]; simpl; [discriminate |].
  destruct (is_digit c) eqn:D; [| exact IH].
  intros [= <-]. now exists c, (take_digits r).
Qed.

(** The first run of digits of a reply is read as an integer that is not
    negative. *)
Lemma parseInt_first_digits (raw m : string) :
  first_digits raw = Some m ->
  exists n : Z, (0 <= n)%Z /\ parseInt m = Fin (inject_Z n).
Proof.
  intro E. destruct (first_digits_head raw m E) as (c & r & -> & D).
  unfold parseInt.
  assert (T : trimStart (String c r) = String c r).
  { apply trimStart_plain; [exact (digit_not_ws c D) | exact (digit_below_128 c D)]. }
  rewrite T, (digit_not_sign c r D).
  assert (Eh : scan_digits 0 0 (String c r)
               = scan_digits (10 * 0 + digit_val c) 1 r).
  { cbn [scan_digits]. now rewrite D. }
  rewrite Eh.
  destruct (scan_digits_nonneg r (10 * 0 + digit_val c) 1)
    as (v & k & rest & Es & Hv & Hk).
  { unfold is_digit in D. apply andb_prop in D. destruct D as [D _].
    apply Z.leb_le in D. unfold digit_val. lia. }
  rewrite Es. destruct k as [| k]; [lia |].
  exists v. split; [exact Hv | reflexivity].
Qed.

(** The score read off a reply is [NaN] or an integer that is not
    negative. *)
Lemma reply_score_shape (raw : string) :
  reply_score raw = NaN
  \/ exists n : Z, (0 <= n)%Z /\ reply_score raw = Fin (inject_Z n).
Proof.
  unfold reply_score. destruct (first_digits raw) as [m |] eqn:E; [| now left].
  right. exact (parseInt_first_digits raw m E).
Qed.

(** ** The odds transform on rationals *)

Lemma odds_denominator_pos (d : Q) : 0 < 1 + Qabs (d / 50) * 0.8.
Proof. pose proof (Qabs_nonneg (d / 50)). lra. Qed.

Lemma ratio_mono (x y : Q) :
  x <= y -> x / (1 + Qabs x * 0.8) <= y / (1 + Qabs y * 0.8).
Proof.
  intro H.
  assert (Ha : 0 < 1 + Qabs x * 0.8) by (pose proof (Qabs_nonneg x); lra).
  assert (Hb : 0 < 1 + Qabs y * 0.8) by (pose proof (Qabs_nonneg y); lra).
  apply Qle_shift_div_l; trivial.
  assert (E : x / (1 + Qabs x * 0.8) * (1 + Qabs y * 0.8)
              == x * (1 + Qabs y * 0.8) / (1 + Qabs x * 0.8)) by (field; lra).
  rewrite E. apply Qle_shift_div_r; trivial.
  revert Ha Hb. apply (Qabs_case x); apply (Qabs_case y); intros; nra.
Qed.

Lemma ratio_odd (x : Q) :
  (- x) / (1 + Qabs (- x) * 0.8) == - (x / (1 + Qabs x * 0.8)).
Proof.
  rewrite Qabs_opp. field. pose proof (Qabs_nonneg x); lra.
Qed.

Lemma unclampedOdds_mono (d e : Q) : d <= e -> unclampedOdds d <= unclampedOdds e.
Proof.
  intro H. unfold unclampedOdds.
  assert (M : d / 50 / (1 + Qabs (d / 50) * 0.8)
              <= e / 50 / (1 + Qabs (e / 50) * 0.8)).
  { apply ratio_mono. unfold Qdiv.
    apply Qmult_le_compat_r; [exact H | discriminate]. }
  lra.
Qed.

Lemma unclampedOdds_sym (d : Q) : unclampedOdds (- d) == 100 - unclampedOdds d.
Proof.
  unfold unclampedOdds.
  assert (E : - d / 50 == - (d / 50)) by field.
  rewrite E, ratio_odd. lra.
Qed.

Lemma unclampedOdds_zero (d : Q) : d == 0 -> unclampedOdds d == 50.
Proof. intro H. unfold unclampedOdds. rewrite H. reflexivity. Qed.

(** [oddsOfDelta] on a finite delta: the unclamped odds brought into
    [2, 98]. *)
Lemma oddsOfDelta_Fin (d : Q) :
  exists o : Q, oddsOfDelta (Fin d) = Fin o /\ 2 <= o <= 98 /\
    (unclampedOdds d <= 2 -> o == 2) /\
    (98 <= unclampedOdds d -> o == 98) /\
    (2 <= unclampedOdds d <= 98 -> o == unclampedOdds d).
Proof.
  unfold oddsOfDelta, unclampedOdds.
  rewrite (div_Fin_pos d 50) by lra.
  cbn [Num.abs Num.mul Num.add].
  rewrite div_Fin_pos by apply odds_denominator_pos.
  cbn [Num.abs Num.mul Num.add].
  set (u := 50 + d / 50 / (1 + Qabs (d / 50) * 0.8) * 50 * 1.5).
  split_minmax; split_minmax; eexists; (split; [reflexivity |]);
    repeat split; intros; try lra.
Qed.

Lemma oddsOfDelta_mono (d e : Q) :
  d <= e ->
  exists o p : Q,
    oddsOfDelta (Fin d) = Fin o /\ oddsOfDelta (Fin e) = Fin p /\ o <= p.
Proof.
  intro H. pose proof (unclampedOdds_mono d e H) as M.
  destruct (oddsOfDelta_Fin d) as (o & Eo & Ho & A1 & A2 & A3).
  destruct (oddsOfDelta_Fin e) as (p & Ep & Hp & B1 & B2 & B3).
  exists o, p. repeat split; trivial.
  destruct (Qlt_le_dec (unclampedOdds d) 2), (Qlt_le_dec 98 (unclampedOdds d)),
           (Qlt_le_dec (unclampedOdds e) 2), (Qlt_le_dec 98 (unclampedOdds e));
    try lra; use_cases; lra.
Qed.

Lemma oddsOfDelta_sym (d e : Q) :
  e == - d ->
  exists o p : Q,
    oddsOfDelta (Fin d) = Fin o /\ oddsOfDelta (Fin e) = Fin p /\ o + p == 100.
Proof.
  intro H.
  assert (E : unclampedOdds e == 100 - unclampedOdds d).
  { rewrite <- unclampedOdds_sym. unfold unclampedOdds. now rewrite H. }
  destruct (oddsOfDelta_Fin d) as (o & Eo & Ho & A1 & A2 & A3).
  destruct (oddsOfDelta_Fin e) as (p & Ep & Hp & B1 & B2 & B3).
  exists o, p. repeat split; trivial.
  destruct (Qlt_le_dec (unclampedOdds d) 2), (Qlt_le_dec 98 (unclampedOdds d));
    use_cases; lra.
Qed.

(** Two numbers that add up to 100 round to integers that add up to 100
    or, on a tie, to 101. *)
Lemma round_pair (o p : Q) :
  o + p == 100 -> (100 <= Qfloor (o + 0.5) + Qfloor (p + 0.5) <= 101)%Z.
Proof.
  intro Hsum.
  pose proof (Qfloor_le (o + 0.5)). pose proof (Qlt_floor (o + 0.5)).
  pose proof (Qfloor_le (p + 0.5)). pose proof (Qlt_floor (p + 0.5)).
  rewrite inject_Z_plus in *. change (inject_Z 1) with 1 in *.
  split.
  - assert (X : inject_Z 99 < inject_Z (Qfloor (o + 0.5) + Qfloor (p + 0.5))).
    { rewrite inject_Z_plus. change (inject_Z 99) with 99. lra. }
    rewrite <- Zlt_Qlt in X. lia.
  - assert (X : inject_Z (Qfloor (o + 0.5) + Qfloor (p + 0.5)) < inject_Z 102).
    { rewrite inject_Z_plus. change (inject_Z 102) with 102. lra. }
    rewrite <- Zlt_Qlt in X. lia.
Qed.

(** ** getAdmissionOdds *)

Section OddsProperties.

Variable NumberToString : num -> string.

Abbreviation scoreNorm := (RateSystem.scoreNorm NumberToString).
Abbreviation delta := (RateSystem.delta NumberToString).
Abbreviation getAdmissionOdds := (RateSystem.getAdmissionOdds NumberToString).

(** The clamp of a score that is not [NaN]. *)
Lemma clamp_0_100 (x : num) :
  isNaN x = false -> within 0 100 (Num.max 0 (Num.min 100 x)).
Proof.
  unfold within. destruct x as [ | | | q]; intro H; try discriminate.
  - exists 100. split; [reflexivity | lra].
  - exists 0. split; [reflexivity | lra].
  - finish_within.
Qed.

(** A number, [NaN] and the infinities included, is clamped into
    [0, 100]: [NaN || 0] is [0]. *)
Lemma scoreNorm_num (x : num) : within 0 100 (scoreNorm (VNum x)).
Proof.
  unfold RateSystem.scoreNorm, parseScore, or_else.
  destruct x as [ | | | q]; simpl truthy; cbv iota; simpl ToNumber;
    try (apply clamp_0_100; reflexivity).
  destruct (negb _); simpl ToNumber; apply clamp_0_100; reflexivity.
Qed.

(** A number of the range [0, 100] is left as it is. *)
Lemma scoreNorm_in_range (q : Q) :
  0 <= q <= 100 -> exists r, scoreNorm (VNum (Fin q)) = Fin r /\ r == q.
Proof.
  intros [H0 H1]. unfold RateSystem.scoreNorm, parseScore, or_else.
  simpl. destruct (Qeq_bool q 0) eqn:E; simpl.
  - apply Qeq_bool_iff in E.
    split_minmax; split_minmax; eexists; split; try reflexivity; lra.
  - split_minmax; split_minmax; eexists; split; try reflexivity; lra.
Qed.

(** An absent score counts as zero. *)
Lemma scoreNorm_absent :
  scoreNorm VUndef = Fin 0 /\ scoreNorm VNull = Fin 0 /\ scoreNorm (VNum NaN) = Fin 0.
Proof. repeat split. Qed.

Lemma delta_num (x y : num) :
  exists d, delta (VNum x) (VNum y) = Fin d /\ -100 <= d <= 100.
Proof.
  unfold RateSystem.delta.
  destruct (scoreNorm_num x) as (a & Ea & Ha), (scoreNorm_num y) as (b & Eb & Hb).
  rewrite Ea, Eb.
  exists (a + - b). split; [reflexivity | lra].
Qed.

(** C3, at its failing input: a string that is not a number is parsed to
    [NaN], which the clamp and the transform carry to the result;
    [getAdmissionOdds('abc', 50)] is [NaN], not the [8] that
    [getAdmissionOdds(0, 50)] gives. *)
Theorem odds_of_non_numeric_string :
  getAdmissionOdds (VStr "abc") (VNum 50) = NaN
  /\ getAdmissionOdds (VNum 0) (VNum 50) = Fin (inject_Z 8)
  /\ getAdmissionOdds VUndef (VNum 50) = Fin (inject_Z 8).
Proof. repeat split; vm_compute; reflexivity. Qed.

(** C4: for [a] and [b] in [0, 100], the odds of [a] against [b] and of
    [b] against [a] are integers whose sum is within one of 100. *)
Theorem odds_symmetry (a b : Q) :
  0 <= a <= 100 -> 0 <= b <= 100 ->
  exists m n : Z,
    getAdmissionOdds (VNum a) (VNum b) = Fin (inject_Z m) /\
    getAdmissionOdds (VNum b) (VNum a) = Fin (inject_Z n) /\
    (99 <= m + n <= 101)%Z.
Proof.
  intros Ha Hb. unfold RateSystem.getAdmissionOdds, RateSystem.delta.
  destruct (scoreNorm_in_range a Ha) as (a' & Ea' & Ea).
  destruct (scoreNorm_in_range b Hb) as (b' & Eb' & Eb).
  rewrite Ea', Eb'.
  cbn [Num.sub Num.neg Num.add].
  destruct (oddsOfDelta_sym (a' + - b') (b' + - a')) as (o & p & -> & -> & Hsum);
    [lra |].
  unfold Num.round. do 2 eexists. split; [reflexivity | split; [reflexivity |]].
  pose proof (round_pair o p Hsum). lia.
Qed.

(** C6: equal scores of the range [0, 100] give odds of exactly 50. *)
Theorem odds_self (s : Q) :
  0 <= s <= 100 -> getAdmissionOdds (VNum s) (VNum s) = Fin (inject_Z 50).
Proof.
  intros Hs. unfold RateSystem.getAdmissionOdds, RateSystem.delta.
  destruct (scoreNorm_num (Fin s)) as (a & Ea & Ha).
  rewrite Ea.
  cbn [Num.sub Num.neg Num.add].
  destruct (oddsOfDelta_Fin (a + - a)) as (o & -> & _ & _ & _ & Hmid).
  assert (E : o == 50).
  { rewrite Hmid; rewrite unclampedOdds_zero; try lra. }
  unfold Num.round.
  rewrite (Qfloor_comp _ (50 + 0.5)) by (rewrite E; reflexivity).
  reflexivity.
Qed.

(** C7: on numbers, [NaN] and the infinities included, the odds are an
    integer of the range 2..98; a score of 100 against 0 gives 98 and a
    score of 0 against 100 gives 2. *)
Theorem odds_range :
  (forall x y : num, int_in 2 98 (getAdmissionOdds (VNum x) (VNum y)))
  /\ getAdmissionOdds (VNum 100) (VNum 0) = Fin (inject_Z 98)
  /\ getAdmissionOdds (VNum 0) (VNum 100) = Fin (inject_Z 2).
Proof.
  split; [| split; vm_compute; reflexivity].
  intros x y. unfold RateSystem.getAdmissionOdds.
  destruct (delta_num x y) as (d & Ed & _). rewrite Ed.
  destruct (oddsOfDelta_Fin d) as (o & -> & [Hlo Hhi] & _).
  apply round_int_in; assumption.
Qed.

(** The same range for any two inputs that are not parsed to [NaN], such
    as strings that start with a numeral. *)
Lemma parsed_scores_odds_bounds (v w : value) :
  isNaN (ToNumber NumberToString (parseScore v)) = false ->
  isNaN (ToNumber NumberToString (parseScore w)) = false ->
  int_in 2 98 (getAdmissionOdds v w).
Proof.
  intros Hv Hw.
  unfold RateSystem.getAdmissionOdds, RateSystem.delta, RateSystem.scoreNorm.
  destruct (clamp_0_100 _ Hv) as (a & -> & _), (clamp_0_100 _ Hw) as (b & -> & _).
  cbn [Num.sub Num.neg Num.add].
  destruct (oddsOfDelta_Fin (a + - b)) as (o & -> & [Hlo Hhi] & _).
  apply round_int_in; assumption.
Qed.

End OddsProperties.

(** ** The odds on doubles *)







(** ** rateCollege *)

Section CollegeProperties.

Variable NumberToString : num -> string.

Abbreviation parseNum := (RateSystem.parseNum NumberToString).

(** What [parseNum] lets through is a finite number. *)
Lemma parseNum_finite (v : value) (x : num) :
  parseNum v = Some x -> exists q, x = Fin q.
Proof.
  unfold RateSystem.parseNum.
  destruct (strict_eq v VNull || strict_eq v VUndef || strict_eq v (VStr ""));
    [discriminate |].
  destruct v as [ | | b | y | s | l | ps]; simpl; try discriminate.
  - destruct y; simpl; try discriminate. intros [= <-]. now eexists.
  - destruct (parseFloat s); simpl; try discriminate. intros [= <-]. now eexists.
Qed.

Ltac open_parseNum v :=
  let x := fresh "x" in let E := fresh "E" in let q := fresh "q" in
  destruct (parseNum v) as [x |] eqn:E;
  [ destruct (parseNum_finite v x E) as [q ->]
  | exists 0; split; [reflexivity | lra] ].

Ltac zero_branch := exists 0; split; [reflexivity | lra].

Lemma acceptanceNorm_within (v : value) :
  within 0 1 (acceptanceNorm NumberToString v).
Proof.
  unfold within, acceptanceNorm. open_parseNum v.
  destruct (_ && _) eqn:C; [| zero_branch].
  cmp_to_Q. destruct (Num.ltb _ _) eqn:L; cmp_to_Q; fin_arith; finish_within.
Qed.

Lemma collegeSatNorm_within (v : value) :
  within 0 1 (collegeSatNorm NumberToString v).
Proof.
  unfold within, collegeSatNorm. open_parseNum v.
  destruct (_ && _) eqn:C; [| zero_branch].
  cmp_to_Q. fin_arith. finish_within.
Qed.

Lemma collegeActNorm_within (v : value) :
  within 0 1 (collegeActNorm NumberToString v).
Proof.
  unfold within, collegeActNorm. open_parseNum v.
  destruct (_ && _) eqn:C; [| zero_branch].
  cmp_to_Q. fin_arith. finish_within.
Qed.

Lemma collegeTestNorm_within (s a : value) :
  within 0 1 (collegeTestNorm NumberToString s a).
Proof.
  unfold collegeTestNorm.
  destruct (collegeSatNorm_within s) as (x & -> & Hx).
  destruct (collegeActNorm_within a) as (y & -> & Hy).
  unfold within. finish_within.
Qed.

Lemma rateNorm_within (v : value) : within 0 1 (rateNorm NumberToString v).
Proof.
  unfold within, rateNorm. open_parseNum v.
  destruct (_ && _) eqn:C; [| zero_branch].
  cmp_to_Q. eexists; split; [reflexivity | lra].
Qed.

Lemma earningsNorm_within (v : value) :
  within 0 1 (earningsNorm NumberToString v).
Proof.
  unfold within, earningsNorm. open_parseNum v.
  destruct (Num.gtb _ _) eqn:C; [| zero_branch].
  cmp_to_Q. fin_arith. finish_within.
Qed.

Lemma enrollmentNorm_within (v : value) :
  within 0 1 (enrollmentNorm NumberToString v).
Proof.
  unfold within, enrollmentNorm. open_parseNum v.
  destruct (Num.gtb _ _) eqn:C; [| zero_branch].
  cmp_to_Q. destruct (_ && _) eqn:C2.
  - cmp_to_Q. fin_arith. eexists; split; [reflexivity |].
    match goal with
    | |- context [Qabs ?z] => pattern (Qabs z); apply Qabs_case; intro
    end; name_quotients; lra.
  - destruct (Num.gtb _ _) eqn:C3.
    + eexists; split; [reflexivity | lra].
    + cmp_to_Q. fin_arith. finish_within.
Qed.

Lemma ratioNorm_within (v : value) : within 0 1 (ratioNorm NumberToString v).
Proof.
  unfold within, ratioNorm. open_parseNum v.
  destruct (Num.gtb _ _) eqn:C; [| zero_branch].
  cmp_to_Q. fin_arith. finish_within.
Qed.

(** The weights add up to one: the combination of dimensions of [0, 1] is
    in [0, 1]. *)
Lemma collegeComposite_within (a t g r e n f : num) :
  within 0 1 a -> within 0 1 t -> within 0 1 g -> within 0 1 r ->
  within 0 1 e -> within 0 1 n -> within 0 1 f ->
  within 0 1 (collegeComposite a t g r e n f).
Proof.
  intros (? & -> & ?) (? & -> & ?) (? & -> & ?) (? & -> & ?)
         (? & -> & ?) (? & -> & ?) (? & -> & ?).
  unfold collegeComposite. cbn [Num.add Num.mul].
  eexists; split; [reflexivity | lra].
Qed.

(** C9: [rateCollege] is a total function of its argument, whatever
    value that is, and its result is an integer of the range 0..100. *)
Theorem rateCollege_range (college : value) :
  int_in 0 100 (rateCollege NumberToString college).
Proof.
  unfold rateCollege.
  set (o := or_else college (VObj [])).
  destruct (collegeComposite_within _ _ _ _ _ _ _
              (acceptanceNorm_within (field o "acceptance_rate"))
              (collegeTestNorm_within (field o "sat_50th_percentile")
                                      (field o "act_50th_percentile"))
              (rateNorm_within (field o "graduation_rate"))
              (rateNorm_within (field o "retention_rate"))
              (earningsNorm_within (field o "median_earnings_10_years"))
              (enrollmentNorm_within (field o "enrollment"))
              (ratioNorm_within (field o "student_faculty_ratio")))
    as (c & E & Hc).
  unfold graduationNorm, retentionNorm. rewrite E. cbn [Num.mul].
  apply round_int_in;
    change (inject_Z 0) with 0; change (inject_Z 100) with 100; lra.
Qed.

End CollegeProperties.

(** ** getActivitiesScore and rateStudent *)

Section StudentProperties.

Variable NumberToString : num -> string.
Variable GPT_API_KEY : string.
Variable fetch : request -> fetch_result.

Abbreviation getActivitiesScore := (RateSystem.getActivitiesScore GPT_API_KEY fetch).
Abbreviation activitiesNorm := (RateSystem.activitiesNorm GPT_API_KEY fetch).
Abbreviation rateStudent := (RateSystem.rateStudent NumberToString GPT_API_KEY fetch).
Abbreviation gpaNorm := (RateSystem.gpaNorm NumberToString).
Abbreviation satNorm := (RateSystem.satNorm NumberToString).
Abbreviation actNorm := (RateSystem.actNorm NumberToString).
Abbreviation testNorm := (RateSystem.testNorm NumberToString).
Abbreviation apScore := (RateSystem.apScore NumberToString).
Abbreviation apTotal := (RateSystem.apTotal NumberToString).
Abbreviation apNorm := (RateSystem.apNorm NumberToString).
Abbreviation activitiesText := (RateSystem.activitiesText NumberToString).

Ltac zero_branch := exists 0; split; [reflexivity | lra].

(** *** The activities score *)

Lemma clamp_1_10 (x : num) :
  isNaN x = false -> within 1 10 (Num.min 10 (Num.max 1 x)).
Proof.
  unfold within. destruct x as [ | | | q]; intro H; try discriminate.
  - exists 10. split; [reflexivity | lra].
  - exists 1. split; [reflexivity | lra].
  - finish_within.
Qed.

Lemma clamp_integer (n : Z) :
  Num.min 10 (Num.max 1 (Fin (inject_Z n)))
  = Fin (inject_Z (Z.min 10 (Z.max 1 n))).
Proof.
  change (Fin 1) with (Fin (inject_Z 1)). change (Fin 10) with (Fin (inject_Z 10)).
  destruct (max_Fin (inject_Z 1) (inject_Z n)) as [[H ->] | [H ->]].
  - rewrite <- Zlt_Qlt in H. rewrite (Z.max_r 1 n) by lia.
    destruct (min_Fin (inject_Z 10) (inject_Z n)) as [[H' ->] | [H' ->]].
    + rewrite <- Zlt_Qlt in H'. now rewrite Z.min_r by lia.
    + rewrite <- Zle_Qle in H'. now rewrite Z.min_l by lia.
  - rewrite <- Zle_Qle in H. rewrite (Z.max_l 1 n) by lia. reflexivity.
Qed.

(** Whatever the text, the key and the outcome of the call, the score is
    in [1, 10]. *)
Lemma getActivitiesScore_within (text : string) :
  within 1 10 (getActivitiesScore text).
Proof.
  assert (D : within 1 10 (Fin 5.5)) by (exists 5.5; split; [reflexivity | lra]).
  unfold RateSystem.getActivitiesScore.
  destruct (_ || _); trivial.
  destruct (is_empty GPT_API_KEY); trivial.
  destruct (fetch _) as [ | ok [data |]]; trivial.
  destruct (negb ok); trivial.
  destruct (message_content data) as [raw |]; trivial.
  cbv zeta. destruct (isNaN (reply_score raw)) eqn:E; trivial.
  now apply clamp_1_10.
Qed.

Lemma activitiesNorm_within (text : string) :
  within 0.1 1 (activitiesNorm text).
Proof.
  unfold RateSystem.activitiesNorm.
  destruct (getActivitiesScore_within text) as (s & -> & Hs).
  unfold within. fin_arith. finish_within.
Qed.

(** A successful response that carries the integer [n] is scored [n]
    brought into 1..10. *)
Lemma getActivitiesScore_reply (text : string) (data : value) (raw : string)
    (n : Z) :
  is_empty (trim text) = false ->
  is_empty GPT_API_KEY = false ->
  fetch {| authorization := "Bearer " ++ GPT_API_KEY;
           user_content := prompt text |} = Response true (Some data) ->
  message_content data = Some raw ->
  reply_score raw = Fin (inject_Z n) ->
  getActivitiesScore text = Fin (inject_Z (Z.min 10 (Z.max 1 n))).
Proof.
  intros Ht Hk Hf Hm Hr. unfold RateSystem.getActivitiesScore.
  assert (Ht' : is_empty text = false).
  { destruct text; [discriminate | reflexivity]. }
  rewrite Ht, Ht', Hk, Hf, Hm, Hr. simpl. apply clamp_integer.
Qed.

(** The score is the neutral 5.5 or an integer of 1..10. *)
Lemma getActivitiesScore_values (text : string) :
  getActivitiesScore text = Fin 5.5 \/ int_in 1 10 (getActivitiesScore text).
Proof.
  unfold RateSystem.getActivitiesScore.
  destruct (_ || _); [now left |].
  destruct (is_empty GPT_API_KEY); [now left |].
  destruct (fetch _) as [ | ok [data |]]; try now left.
  destruct (negb ok); [now left |].
  destruct (message_content data) as [raw |]; [| now left].
  cbv zeta. destruct (reply_score_shape raw) as [-> | (n & Hn & ->)]; [now left |].
  right. simpl isNaN. cbv iota. rewrite clamp_integer.
  eexists. split; [reflexivity | lia].
Qed.

(** C10, amended: the activities score is in [1, 10] and the activities
    dimension in [0.1, 1], for every text, key and outcome of the call;
    the score is the neutral 5.5 or an integer of 1..10.  A successful
    response whose reply holds a digit is scored by its first run of
    digits, read as a number that is not negative, whatever precedes the
    run, a sign included; that number is brought into 1..10, not used raw
    and not replaced by the default. *)
Theorem activities_score_clamped (text : string) :
  within 1 10 (getActivitiesScore text)
  /\ within 0.1 1 (activitiesNorm text)
  /\ (getActivitiesScore text = Fin 5.5 \/ int_in 1 10 (getActivitiesScore text))
  /\ (forall (data : value) (raw m : string),
        is_empty (trim text) = false ->
        is_empty GPT_API_KEY = false ->
        fetch {| authorization := "Bearer " ++ GPT_API_KEY;
                 user_content := prompt text |} = Response true (Some data) ->
        message_content data = Some raw ->
        first_digits raw = Some m ->
        Num.leb 0 (parseInt m) = true
        /\ getActivitiesScore text = Num.min 10 (Num.max 1 (parseInt m))).
Proof.
  split; [apply getActivitiesScore_within |].
  split; [apply activitiesNorm_within |].
  split; [apply getActivitiesScore_values |].
  intros data raw m Ht Hk Hf Hm Hd.
  destruct (parseInt_first_digits raw m Hd) as (n & Hn & En).
  split.
  - rewrite En. apply leb_Fin. change 0 with (inject_Z 0). now rewrite <- Zle_Qle.
  - rewrite En, clamp_integer.
    apply (getActivitiesScore_reply text data raw n Ht Hk Hf Hm).
    unfold reply_score. now rewrite Hd.
Qed.

(** C10, as stated, at a reply of -5: an integer outside 1..10, which
    brought into the range is 1; the sign is not read and the score is
    5. *)
Lemma signed_reply_scored_without_sign :
  RateSystem.getActivitiesScore "key" (fetchReplies "-5") "chess club"
  = Fin (inject_Z 5)
  /\ RateSystem.getActivitiesScore "key" (fetchReplies "-5") "chess club"
     <> Fin (inject_Z (Z.min 10 (Z.max 1 (-5)))).
Proof.
  assert (E : RateSystem.getActivitiesScore "key" (fetchReplies "-5") "chess club"
              = Fin (inject_Z 5)) by reflexivity.
  split; [exact E |]. rewrite E. discriminate.
Qed.

(** *** The academic dimensions *)

Lemma gpaNorm_within (gpa weighted : value) : within 0 1 (gpaNorm gpa weighted).
Proof.
  unfold within, RateSystem.gpaNorm.
  assert (M : exists m, gpaMax weighted = Fin m /\ 4 <= m <= 5).
  { unfold gpaMax. destruct (truthy weighted); eexists; (split; [reflexivity | lra]). }
  destruct M as (m & -> & Hm).
  destruct (ToNumber NumberToString (gpaNum gpa)) as [ | | | q]; try zero_branch.
  - exists 1. unfold Num.div, Num.sign.
    destruct (Qcompare_spec m 0); try lra; simpl; (split; [reflexivity | lra]).
  - destruct (Num.gtb _ _) eqn:C; [| zero_branch].
    cmp_to_Q. rewrite div_Fin_pos by lra.
    assert (E : q / m * m == q) by (field; lra).
    set (t := q / m) in *. clearbody t.
    split_minmax; eexists; (split; [reflexivity |]); nra.
Qed.

Lemma satNorm_le_1 (sat act : value) :
  exists t, satNorm sat act = Fin t /\ t <= 1.
Proof.
  unfold RateSystem.satNorm. destruct (isUntaken sat act).
  - fin_arith. finish_within.
  - destruct (ToNumber NumberToString (testNum sat)) as [ | | | q]; try zero_branch.
    + exists 1. split; [reflexivity | lra].
    + destruct (Num.gtb _ _) eqn:C; [| zero_branch].
      fin_arith. finish_within.
Qed.

Lemma actNorm_le_1 (sat act : value) :
  exists t, actNorm sat act = Fin t /\ t <= 1.
Proof.
  unfold RateSystem.actNorm. destruct (negb (isUntaken sat act)); cbn [andb];
    [| zero_branch].
  destruct (ToNumber NumberToString (testNum act)) as [ | | | q]; try zero_branch.
  - exists 1. split; [reflexivity | lra].
  - destruct (Num.gtb _ _) eqn:C; [| zero_branch].
    fin_arith. finish_within.
Qed.

Lemma testNorm_le_1 (sat act : value) :
  exists t, testNorm sat act = Fin t /\ t <= 1.
Proof.
  unfold RateSystem.testNorm.
  destruct (satNorm_le_1 sat act) as (x & -> & Hx).
  destruct (actNorm_le_1 sat act) as (y & -> & Hy).
  finish_within.
Qed.

Lemma apScore_finite (c : value) : exists q, apScore c = Fin q.
Proof.
  unfold RateSystem.apScore.
  match goal with |- context [Number_isFinite ?s] => generalize s end.
  intros [ | | b | [ | | | q] | s | l | ps]; simpl; eexists; reflexivity.
Qed.

Lemma apTotal_finite (aps : list value) : exists q, apTotal aps = Fin q.
Proof.
  unfold RateSystem.apTotal. generalize 0.
  induction aps as [| c aps IH]; intro acc; simpl.
  - now exists acc.
  - destruct (apScore_finite c) as [q ->]. apply IH.
Qed.

Lemma apNorm_le_1 (aps : list value) : exists a, apNorm aps = Fin a /\ a <= 1.
Proof.
  unfold RateSystem.apNorm, apCountNorm, apScoreNorm, RateSystem.apAvgScore.
  destruct (Num.gtb (count aps) 0) eqn:C; [| zero_branch].
  unfold count in *. cmp_to_Q.
  destruct (apTotal_finite aps) as [tot ->].
  rewrite (div_Fin_pos tot) by exact C.
  fin_arith. repeat split_minmax; eexists; (split; [reflexivity |]); lra.
Qed.



(** *** The promise settles *)

Lemma validAps_ok (student : value) :
  apCourses_ok student = true ->
  exists aps,
    validAps (default_to (field (or_else student (VObj [])) "apCourses") (VArr []))
    = Some aps.
Proof.
  unfold apCourses_ok, validAps.
  generalize (default_to (field (or_else student (VObj [])) "apCourses") (VArr [])).
  intros v H. unfold or_else.
  destruct v as [ | | b | x | s | l | ps]; try discriminate;
    try (eexists; reflexivity);
    apply negb_true_iff in H; rewrite H; eexists; reflexivity.
Qed.

(** Without a conversion that throws, [rateStudent] is the score of the
    four dimensions, or the rejection of [.filter]. *)
Lemma rateStudent_converts (student : value) :
  studentThrows student = false ->
  rateStudent student
  = let o := or_else student (VObj []) in
    match validAps (default_to (field o "apCourses") (VArr [])) with
    | None => None
    | Some aps =>
        Some (studentScore
                (gpaNorm (field o "gpa") (default_to (field o "weighted") (VBool true)))
                (testNorm (field o "sat") (field o "act"))
                (apNorm aps)
                (activitiesNorm
                   (activitiesText (default_to (field o "activities") (VStr "")))))
    end.
Proof.
  unfold studentThrows, RateSystem.rateStudent. cbv zeta. now intros ->.
Qed.

(** [rateStudent] rejects exactly when a conversion throws or [apCourses]
    is truthy and not an array. *)
Lemma rateStudent_rejects (student : value) :
  rateStudent student = None
  <-> studentThrows student = true \/ apCourses_ok student = false.
Proof.
  destruct (studentThrows student) eqn:T.
  - split; [now left |]. intros _.
    unfold studentThrows in T. unfold RateSystem.rateStudent. cbv zeta in *.
    now rewrite T.
  - rewrite (rateStudent_converts student T). cbv zeta. split.
    + intro H. right. destruct (apCourses_ok student) eqn:E; trivial.
      destruct (validAps_ok student E) as (aps & Eaps).
      rewrite Eaps in H. discriminate.
    + intros [H | H]; [discriminate |]. revert H.
      unfold apCourses_ok, validAps.
      generalize (default_to (field (or_else student (VObj [])) "apCourses") (VArr [])).
      intros v H. unfold or_else.
      destruct v as [ | | b | x | s | l | ps]; try discriminate;
        try (apply negb_false_iff in H; rewrite H); reflexivity.
Qed.

(** When it resolves, the score is an integer and at most 100. *)
Lemma rateStudent_at_most_100 (student : value) :
  studentThrows student = false ->
  apCourses_ok student = true ->
  exists n : Z, rateStudent student = Some (Fin (inject_Z n)) /\ (n <= 100)%Z.
Proof.
  intros Hconv Hap. set (o := or_else student (VObj [])).
  destruct (validAps_ok student Hap) as (aps & Eaps). fold o in Eaps.
  destruct (gpaNorm_within (field o "gpa") (default_to (field o "weighted") (VBool true)))
    as (g & Eg & Hg).
  destruct (testNorm_le_1 (field o "sat") (field o "act")) as (t & Et & Ht).
  destruct (apNorm_le_1 aps) as (a & Ea & Ha).
  destruct (activitiesNorm_within
              (activitiesText (default_to (field o "activities") (VStr ""))))
    as (c & Ec & Hc).
  rewrite (rateStudent_converts student Hconv). cbv zeta. fold o.
  rewrite Eaps, Eg, Et, Ea, Ec.
  unfold studentScore, studentComposite. cbn [Num.add Num.mul Num.round].
  eexists. split; [reflexivity |].
  match goal with |- (Qfloor ?x <= 100)%Z =>
    pose proof (Qfloor_le x) as F;
    assert (X : inject_Z (Qfloor x) < inject_Z 101)
      by (change (inject_Z 101) with 101; lra)
  end.
  rewrite <- Zlt_Qlt in X. lia.
Qed.


(** *** The untested student *)

Lemma noScore_absent (t : value) :
  absent_empty_or_zero t = true -> noScore t = true.
Proof.
  unfold noScore. destruct t as [ | | b | x | s | l | ps]; simpl;
    try discriminate; trivial.
  - intro H. unfold testNum, or_else. simpl. rewrite H.
    destruct (isNaN x); reflexivity.
  - intro H. destruct s as [| c r]; [reflexivity |].
    cbn [is_empty orb] in H. unfold testNum. cbn [as_string strict_eq].
    now rewrite H.
Qed.




(** *** Dimensions below zero *)

(** C1, at its failing inputs: an AP course with a score of -100 gives an
    AP dimension of -9.95, and an SAT of 100 with an ACT of 0.5 gives a
    test dimension of -1/70; neither is in [0, 1]. *)
Theorem student_dimension_below_zero :
  (exists q, apNorm [negativeAp] = Fin q /\ q == -9.95)
  /\ (exists q, testNorm (VNum 100) (VNum 0.5) = Fin q /\ q == - (1 # 70))
  /\ ~ within 0 1 (apNorm [negativeAp])
  /\ ~ within 0 1 (testNorm (VNum 100) (VNum 0.5)).
Proof.
  assert (A : exists q, apNorm [negativeAp] = Fin q /\ q == -9.95).
  { eexists. split; [vm_compute; reflexivity | reflexivity]. }
  assert (T : exists q, testNorm (VNum 100) (VNum 0.5) = Fin q /\ q == - (1 # 70)).
  { eexists. split; [vm_compute; reflexivity | reflexivity]. }
  repeat split; trivial.
  - destruct A as (q & E & Hq). intros (r & Er & Hr).
    rewrite E in Er. injection Er as <-. lra.
  - destruct T as (q & E & Hq). intros (r & Er & Hr).
    rewrite E in Er. injection Er as <-. lra.
Qed.

(** C2, at its failing input: for the student whose only AP course has a
    score of -100, [rateStudent] resolves to -128. *)
Theorem rateStudent_below_zero :
  rateStudent negativeApStudent = Some (Fin (inject_Z (-128))).
Proof. vm_compute. reflexivity. Qed.

End StudentProperties.

(** ** The properties at concrete inputs *)

(** [getAdmissionOdds(80, 50)] and [getAdmissionOdds(50, 80)]. *)
Lemma odds_symmetry_witness :
  0 <= 80 <= 100 /\ 0 <= 50 <= 100 /\
  exists m n : Z,
    getAdmissionOdds noNumberToString (VNum 80) (VNum 50) = Fin (inject_Z m) /\
    getAdmissionOdds noNumberToString (VNum 50) (VNum 80) = Fin (inject_Z n) /\
    (99 <= m + n <= 101)%Z.
Proof.
  split; [split; discriminate |].
  split; [split; discriminate |].
  apply (odds_symmetry noNumberToString 80 50); split; discriminate.
Defined.


(** [getAdmissionOdds(70, 70)]. *)
Lemma odds_self_witness :
  0 <= 70 <= 100 /\
  getAdmissionOdds noNumberToString (VNum 70) (VNum 70) = Fin (inject_Z 50).
Proof.
  split; [split; discriminate |].
  apply (odds_self noNumberToString 70). split; discriminate.
Defined.


(** Replies of 12 and of 0 to a student with one activity: the scores
    are the clamps of the numbers read, 10 and 1. *)
Lemma activities_score_clamped_witness :
  (Num.leb 0 (parseInt "12") = true
   /\ getActivitiesScore "key" (fetchReplies "12") "chess club"
      = Num.min 10 (Num.max 1 (parseInt "12")))
  /\ (Num.leb 0 (parseInt "0") = true
      /\ getActivitiesScore "key" (fetchReplies "0") "chess club"
         = Num.min 10 (Num.max 1 (parseInt "0")))
  /\ Num.eqb (Num.min 10 (Num.max 1 (parseInt "12"))) 10 = true
  /\ Num.eqb (Num.min 10 (Num.max 1 (parseInt "0"))) 1 = true.
Proof.
  split; [| split; [| split; reflexivity]].
  - exact (proj2 (proj2 (proj2
             (activities_score_clamped "key" (fetchReplies "12") "chess club")))
             (reply "12") "12" "12" eq_refl eq_refl eq_refl eq_refl eq_refl).
  - exact (proj2 (proj2 (proj2
             (activities_score_clamped "key" (fetchReplies "0") "chess club")))
             (reply "0") "0" "0" eq_refl eq_refl eq_refl eq_refl eq_refl).
Defined.

(** *** The examples of the specification *)

Module SpecExamples.

Abbreviation nts := noNumberToString.

(** The untested student scores 56: 0.35 for the GPA, a tenth for the
    assumed SAT, 0.11 for the neutral activities. *)
Example rateStudent_untested :
  rateStudent nts "" fetchRejects untestedStudent = Some (Fin (inject_Z 56)).
Proof. reflexivity. Qed.

(** One AP course with a score of 5: 0.5 * 0.1 + 0.5 * 1. *)
Example apNorm_one_course :
  Num.eqb (apNorm nts [VObj [("course", VStr "Calc BC"); ("score", VNum 5)]]) 0.55
  = true.
Proof. reflexivity. Qed.

(** The boost of a very selective college is clamped to one. *)
Example acceptanceNorm_boost :
  Num.eqb (acceptanceNorm nts (VNum 0.05)) 1 = true.
Proof. reflexivity. Qed.

Example enrollmentNorm_peak :
  Num.eqb (enrollmentNorm nts (VNum 15000)) 1 = true.
Proof. reflexivity. Qed.

Example enrollmentNorm_very_large :
  Num.eqb (enrollmentNorm nts (VNum 30001)) 0.7 = true.
Proof. reflexivity. Qed.

Example enrollmentNorm_small :
  Num.eqb (enrollmentNorm nts (VNum 4999)) 0.6 = true.
Proof. reflexivity. Qed.

(** Activities without a key, or with a call that fails, count 5.5. *)
Example activities_fallback :
  getActivitiesScore "" (fetchReplies "9") "chess club" = Fin 5.5
  /\ getActivitiesScore "key" fetchRejects "chess club" = Fin 5.5
  /\ getActivitiesScore "key" (fetchReplies "nine") "chess club" = Fin 5.5
  /\ getActivitiesScore "key" (fun _ => Response false (Some (reply "9"))) "chess club"
     = Fin 5.5
  /\ getActivitiesScore "key" (fun _ => Response true (Some VNull)) "chess club"
     = Fin 5.5.
Proof. repeat split. Qed.

(** The structured activities as the text handed to the capability. *)
Example activitiesText_of_array :
  activitiesText nts
    (VArr [VObj [("hours", VStr "3"); ("description", VStr "chess")];
           VNull;
           VObj [("hours", VStr "2")];
           VObj [("description", VStr "band")]])
  = "3 hrs — chess
band".
Proof. reflexivity. Qed.

(** Strings are read by [parseFloat] and [parseInt]. *)
Example rateCollege_of_strings :
  rateCollege nts
    (VObj [("acceptance_rate", VStr "0.05"); ("sat_50th_percentile", VStr "1500");
           ("graduation_rate", VStr "0.95"); ("retention_rate", VStr "0.98");
           ("median_earnings_10_years", VStr "90000"); ("enrollment", VStr "15000");
           ("student_faculty_ratio", VStr "6")])
  = Fin (inject_Z 92).
Proof. vm_compute. reflexivity. Qed.

(** [apCourses] that is a string: [.filter] is not a function. *)
Example rateStudent_rejects_string_apCourses :
  rateStudent nts "" fetchRejects (VObj [("apCourses", VStr "Calc BC")]) = None.
Proof. reflexivity. Qed.

End SpecExamples.

(** * Further properties *)

Import Csv Script Profile.

(** ** rateStudent at its edges *)

Section StudentEdges.

Variable NumberToString : num -> string.
Variable GPT_API_KEY : string.
Variable fetch : request -> fetch_result.

Abbreviation ToNumber := (Value.ToNumber NumberToString).
Abbreviation testNorm := (RateSystem.testNorm NumberToString).
Abbreviation apScore := (RateSystem.apScore NumberToString).
Abbreviation getActivitiesScore := (RateSystem.getActivitiesScore GPT_API_KEY fetch).
Abbreviation rateStudent := (RateSystem.rateStudent NumberToString GPT_API_KEY fetch).

(** X1: [rateStudent] rejects exactly when [.filter] is called on an
    [apCourses] that is truthy and not an array, or a conversion to a
    primitive throws: of the hours or the description of an activity, of
    the GPA, or, when a test is reported, of the SAT or the ACT.  Nothing
    else rejects it: no outcome of the capability does. *)
Theorem rateStudent_rejection_iff (student : value) :
  let o := or_else student (VObj []) in
  rateStudent student = None
  <-> (truthy (field o "apCourses") = true /\ as_array (field o "apCourses") = None)
      \/ activitiesThrow (default_to (field o "activities") (VStr "")) = true
      \/ throwsToPrimitive (gpaNum (field o "gpa")) = true
      \/ (isUntaken (field o "sat") (field o "act") = false
          /\ (throwsToPrimitive (testNum (field o "sat")) = true
              \/ throwsToPrimitive (testNum (field o "act")) = true)).
Proof.
  intro o. rewrite rateStudent_rejects.
  assert (A : apCourses_ok student = false
              <-> truthy (field o "apCourses") = true
                  /\ as_array (field o "apCourses") = None).
  { unfold apCourses_ok. fold o. generalize (field o "apCourses"). intro v.
    destruct v as [ | | b | x | s | l | ps]; simpl;
      try (split; [discriminate | intros [? ?]; discriminate]);
      try (rewrite negb_false_iff; split; [intro H; now split | now intros [H _]]).
    split; [easy | easy]. }
  assert (T : studentThrows student = true
              <-> activitiesThrow (default_to (field o "activities") (VStr "")) = true
                  \/ throwsToPrimitive (gpaNum (field o "gpa")) = true
                  \/ (isUntaken (field o "sat") (field o "act") = false
                      /\ (throwsToPrimitive (testNum (field o "sat")) = true
                          \/ throwsToPrimitive (testNum (field o "act")) = true))).
  { unfold studentThrows, conversionThrows, testsThrow. fold o.
    rewrite !orb_true_iff, andb_true_iff, negb_true_iff, orb_true_iff. tauto. }
  rewrite A, T. tauto.
Qed.

(** X2: whatever [rateStudent] resolves to is a number at most 100: it
    is never [NaN] and never above 100, each dimension being bounded from
    above by the minimum with one. *)
Theorem rateStudent_at_most_100_always (student : value) (r : num) :
  rateStudent student = Some r -> Num.leb r 100 = true.
Proof.
  intro H.
  destruct (studentThrows student) eqn:T;
    [| destruct (apCourses_ok student) eqn:E].
  - rewrite (proj2 (rateStudent_rejects NumberToString GPT_API_KEY fetch student))
      in H by now left.
    discriminate.
  - destruct (rateStudent_at_most_100 NumberToString GPT_API_KEY fetch student T E)
      as (n & En & Hn).
    rewrite En in H. injection H as <-.
    apply leb_Fin. change 100 with (inject_Z 100). now rewrite <- Zle_Qle.
  - rewrite (proj2 (rateStudent_rejects NumberToString GPT_API_KEY fetch student))
      in H by now right.
    discriminate.
Qed.

(** A test score that counts as missing is not above zero. *)
Lemma noScore_not_positive (t : value) :
  noScore t = true -> Num.gtb (ToNumber (testNum t)) 0 = false.
Proof.
  unfold noScore. intro H.
  destruct (strict_eq (testNum t) (VNum 0)) eqn:E.
  - destruct (testNum t) as [ | | b | x | s | l | ps]; try discriminate.
    simpl in E. simpl. destruct x as [ | | | q]; try discriminate; trivial.
    apply eqb_Fin in E. apply ltb_Fin_false. lra.
  - simpl in H. destruct t as [ | | b | x | s | l | ps];
      try discriminate; try reflexivity.
    destruct s; [reflexivity | discriminate].
Qed.

(** One test, mapped linearly from [lo, hi] and bounded from above only:
    the result is below zero exactly for a score between zero and [lo]. *)
Lemma linear_norm_sign (x : num) (lo hi : Q) :
  0 <= lo -> lo < hi ->
  exists s,
    (if Num.gtb x 0 then Num.min 1 ((x - lo) / (hi - lo))%num else Fin 0) = Fin s
    /\ s <= 1 /\ (s < 0 <-> Num.gtb x 0 && Num.ltb x lo = true).
Proof.
  intros Hlo Hhi. destruct x as [ | | | q].
  - exists 0. split; [reflexivity |]. split; [lra |]. split; [lra | discriminate].
  - exists 1. split.
    + cbn [Num.gtb Num.ltb Num.sub Num.neg Num.add]. unfold Num.div, Num.sign.
      destruct (Qcompare_spec (hi + - lo) 0); try lra; reflexivity.
    + split; [lra |]. split; [lra | discriminate].
  - exists 0. split; [reflexivity |]. split; [lra |]. split; [lra | discriminate].
  - destruct (Num.gtb (Fin q) 0) eqn:C.
    + cmp_to_Q. cbn [Num.sub Num.neg Num.add]. rewrite div_Fin_pos by lra.
      assert (E : (q + - lo) / (hi + - lo) * (hi + - lo) == q + - lo) by (field; lra).
      set (t := (q + - lo) / (hi + - lo)) in *. clearbody t.
      cbn [andb].
      split_minmax; eexists; (split; [reflexivity |]); (split; [lra |]);
        rewrite ltb_Fin; split; intro; nra.
    + exists 0. split; [reflexivity |]. split; [lra |]. split; [lra | discriminate].
Qed.

Lemma testNorm_sign (sat act : value) :
  exists t, testNorm sat act = Fin t /\ t <= 1 /\
    (t < 0 <-> belowBothFloors (ToNumber (testNum sat)) (ToNumber (testNum act)) = true).
Proof.
  unfold RateSystem.testNorm, RateSystem.satNorm, RateSystem.actNorm, belowBothFloors.
  destruct (isUntaken sat act) eqn:U.
  - unfold isUntaken in U. apply andb_prop in U. destruct U as [Us Ua].
    rewrite (noScore_not_positive sat Us). cbn [negb andb].
    eexists. split; [vm_compute; reflexivity |]. split; [lra |].
    split; [lra | discriminate].
  - cbn [negb andb].
    destruct (linear_norm_sign (ToNumber (testNum sat)) 400 1600)
      as (a & Ea & Ha1 & Ha); try lra.
    destruct (linear_norm_sign (ToNumber (testNum act)) 1 36)
      as (b & Eb & Hb1 & Hb); try lra.
    rewrite Ea, Eb. rewrite <- andb_assoc.
    split_minmax; eexists; (split; [reflexivity |]); (split; [lra |]);
      rewrite andb_true_iff, <- Ha, <- Hb; split; intro; lra.
Qed.


(** X4: for an SAT [s] and an ACT [a] given as numbers, the test
    dimension is below zero exactly when [0 < s < 400] and [0 < a < 1]:
    the only inputs on which the missing lower bound shows. *)
Theorem test_dimension_negative_iff (s a : Q) :
  exists t, testNorm (VNum s) (VNum a) = Fin t
            /\ (t < 0 <-> (0 < s /\ s < 400) /\ (0 < a /\ a < 1)).
Proof.
  destruct (testNorm_sign (VNum s) (VNum a)) as (t & Et & _ & Hs).
  exists t. split; [exact Et |]. rewrite Hs. clear Hs Et.
  unfold belowBothFloors, testNum, or_else. simpl as_string. cbv iota.
  assert (P : forall (q lo : Q),
             Num.gtb (ToNumber (if truthy (VNum q) then VNum q else VNum 0)) 0
             && Num.ltb (ToNumber (if truthy (VNum q) then VNum q else VNum 0)) lo = true
             <-> 0 < q /\ q < lo).
  { intros q lo. simpl truthy.
    destruct (Qeq_bool q 0) eqn:E; simpl negb; cbv iota; simpl Value.ToNumber.
    - apply Qeq_bool_iff in E. split; [discriminate | lra].
    - rewrite andb_true_iff, gtb_Fin, ltb_Fin. tauto. }
  rewrite <- andb_assoc, andb_true_iff, (P s 400), (P a 1). tauto.
Qed.

(** X5: with no ACT, a reported SAT scores below the third of the
    untested student exactly when it is below 800: between 0 and 800,
    reporting the SAT lowers the test dimension. *)
Theorem reported_sat_against_untested (s : Q) (act : value) :
  0 < s -> absent_empty_or_zero act = true ->
  exists t, testNorm (VNum s) act = Fin t /\ (t < 1 # 3 <-> s < 800).
Proof.
  intros Hs Ha.
  unfold RateSystem.testNorm, RateSystem.satNorm, RateSystem.actNorm.
  assert (U : isUntaken (VNum s) act = false).
  { unfold isUntaken, noScore, testNum, or_else. simpl.
    destruct (Qeq_bool s 0) eqn:E.
    - apply Qeq_bool_iff in E. lra.
    - simpl. rewrite E. reflexivity. }
  rewrite U. cbn [negb andb].
  rewrite (noScore_not_positive act
             (noScore_absent act Ha)).
  assert (X : ToNumber (testNum (VNum s)) = Fin s).
  { unfold testNum, or_else. simpl. destruct (Qeq_bool s 0) eqn:E; [| reflexivity].
    apply Qeq_bool_iff in E. lra. }
  rewrite X. assert (G : Num.gtb (Fin s) 0 = true) by now apply gtb_Fin.
  rewrite G. cbn [Num.sub Num.neg Num.add]. rewrite div_Fin_pos by reflexivity.
  name_quotients.
  repeat split_minmax; eexists; (split; [reflexivity |]); split; intro; lra.
Qed.

(** A reply with a digit is read as an integer. *)
Lemma reply_score_digits (raw m : string) :
  first_digits raw = Some m ->
  exists n : Z, (0 <= n)%Z /\ reply_score raw = Fin (inject_Z n).
Proof.
  intro E. unfold reply_score. rewrite E. exact (parseInt_first_digits raw m E).
Qed.

(** X6: [getActivitiesScore] gives the neutral 5.5 exactly when the text
    is blank, no key is configured, or the capability failed; in every
    other case the score comes from the reply. *)
Theorem neutral_score_iff (text : string) :
  getActivitiesScore text = Fin 5.5
  <-> (is_empty (trim text) = true
       \/ is_empty GPT_API_KEY = true
       \/ capabilityFailed
            (fetch {| authorization := "Bearer " ++ GPT_API_KEY;
                      user_content := prompt text |}) = true).
Proof.
  unfold RateSystem.getActivitiesScore, capabilityFailed.
  assert (Ht : is_empty text = true -> is_empty (trim text) = true).
  { destruct text; [reflexivity | discriminate]. }
  destruct (is_empty text) eqn:E1.
  { cbn [orb]. split; [intros _; left; now apply Ht | reflexivity]. }
  cbn [orb]. destruct (is_empty (trim text)) eqn:E2.
  { split; [intros _; now left | reflexivity]. }
  destruct (is_empty GPT_API_KEY) eqn:E3.
  { split; [intros _; right; now left | reflexivity]. }
  destruct (fetch _) as [ | ok [data |]].
  - split; [intros _; right; right; reflexivity | reflexivity].
  - destruct ok; cbn [negb].
    + destruct (message_content data) as [raw |].
      * cbv zeta. unfold reply_score at 1 2.
        destruct (first_digits raw) as [m |] eqn:F.
        -- destruct (reply_score_digits raw m F) as (n & Hn & En).
           unfold reply_score in En. rewrite F in En. rewrite En.
           cbn [isNaN]. split.
           ++ intro H. exfalso.
              change (Fin 1) with (Fin (inject_Z 1)) in H.
              change (Fin 10) with (Fin (inject_Z 10)) in H.
              destruct (max_Fin (inject_Z 1) (inject_Z n)) as [[_ M] | [_ M]];
                rewrite M in H;
                match type of H with
                | context [Num.min (Fin ?a) (Fin ?b)] =>
                    destruct (min_Fin a b) as [[_ N] | [_ N]]; rewrite N in H
                end; discriminate.
           ++ intros [H | [H | H]]; discriminate.
        -- split; [intros _; right; right; reflexivity | reflexivity].
      * split; [intros _; right; right; reflexivity | reflexivity].
    + split; [intros _; right; right; reflexivity | reflexivity].
  - split; [intros _; right; right; now destruct ok | reflexivity].
Qed.

End StudentEdges.

(** ** rateCollege: the shape of its dimensions, and what it reads *)

Section CollegeShape.

Variable NumberToString : num -> string.

Abbreviation parseNum := (RateSystem.parseNum NumberToString).
Abbreviation acceptanceNorm := (RateSystem.acceptanceNorm NumberToString).
Abbreviation enrollmentNorm := (RateSystem.enrollmentNorm NumberToString).
Abbreviation rateCollege := (RateSystem.rateCollege NumberToString).

Lemma parseNum_number (q : Q) : parseNum (VNum (Fin q)) = Some (Fin q).
Proof. reflexivity. Qed.

(** The three pieces of the selectivity dimension. *)
Lemma acceptanceNorm_number (r : Q) :
  0 <= r <= 1 ->
  exists n, acceptanceNorm (VNum r) = Fin n /\
    ((r < 0.2 /\ 1 <= (1 - r) * 1.2 /\ n == 1)
     \/ (r < 0.2 /\ (1 - r) * 1.2 < 1 /\ n == (1 - r) * 1.2)
     \/ (0.2 <= r /\ n == 1 - r)).
Proof.
  intros [H0 H1]. unfold RateSystem.acceptanceNorm. rewrite parseNum_number.
  assert (G : Num.geb (Fin r) 0 && Num.leb (Fin r) 1 = true).
  { apply andb_true_iff. split; [now apply geb_Fin | now apply leb_Fin]. }
  rewrite G. cbv zeta. destruct (Num.ltb (Fin r) 0.2) eqn:L; cmp_to_Q; fin_arith.
  - split_minmax; eexists; (split; [reflexivity |]).
    + right. left. repeat split; lra.
    + left. repeat split; lra.
  - eexists. split; [reflexivity |]. right. right. split; lra.
Qed.

(** X7: on acceptance rates of [0, 1] the selectivity dimension never
    rises with the rate, the jump of the boost at 0.2 included. *)
Theorem acceptanceNorm_antitone (r1 r2 : Q) :
  0 <= r1 -> r1 <= r2 -> r2 <= 1 ->
  Num.leb (acceptanceNorm (VNum r2)) (acceptanceNorm (VNum r1)) = true.
Proof.
  intros H0 H12 H1.
  destruct (acceptanceNorm_number r1) as (n1 & -> & C1); [lra |].
  destruct (acceptanceNorm_number r2) as (n2 & -> & C2); [lra |].
  apply leb_Fin.
  destruct C1 as [(? & ? & ?) | [(? & ? & ?) | (? & ?)]];
    destruct C2 as [(? & ? & ?) | [(? & ? & ?) | (? & ?)]]; lra.
Qed.

(** X8: the enrollment dimension of a number [e]: zero up to 0; positive
    and at most 0.6 from one student to below 5000; between 0.8 and 1
    from 5000 to 30000, with the value 1 at 15000 and less than 1 one
    student or more away from it; and 0.7 above 30000. *)
Theorem enrollmentNorm_shape (e : Q) :
  exists n, enrollmentNorm (VNum e) = Fin n /\
    (e <= 0 -> n == 0) /\
    (1 <= e -> e < 5000 -> 0 < n /\ n <= 0.6) /\
    (5000 <= e -> e <= 30000 ->
     0.8 <= n <= 1 /\ (e == 15000 -> n == 1)
     /\ (e <= 14999 \/ 15001 <= e -> n < 1)) /\
    (30000 < e -> n == 0.7).
Proof.
  unfold RateSystem.enrollmentNorm. rewrite parseNum_number.
  destruct (Num.gtb (Fin e) 0) eqn:C; cmp_to_Q.
  - destruct (_ && _) eqn:C2.
    + cmp_to_Q. fin_arith. eexists; split; [reflexivity |].
      match goal with
      | |- context [Qabs ?z] => pattern (Qabs z); apply Qabs_case; intro
      end; name_quotients; repeat split; intros; try lra.
    + destruct (Num.gtb _ _) eqn:C3; cmp_to_Q.
      * eexists; split; [reflexivity |]. repeat split; intros; try lra.
      * assert (e < 5000).
        { apply andb_false_iff in C2. destruct C2 as [C2 | C2].
          - apply Qnot_le_lt. intro.
            assert (Num.geb (Fin e) 5000 = true) by now apply geb_Fin.
            congruence.
          - exfalso.
            assert (Num.leb (Fin e) 30000 = true) by (apply leb_Fin; lra).
            congruence. }
        fin_arith.
        split_minmax; eexists; (split; [reflexivity |]); name_quotients;
          repeat split; intros; try lra.
  - exists 0. split; [reflexivity |]. repeat split; intros; try lra.
Qed.

Lemma parseNum_asNumber (v : value) : parseNum (asNumber v) = parseNum v.
Proof.
  destruct v as [ | | b | x | s | l | ps]; try reflexivity.
  destruct s as [| a s]; [reflexivity |].
  unfold asNumber, RateSystem.parseNum. cbn [is_empty].
  cbn [strict_eq as_string orb].
  replace (String.eqb (String a s) "") with false by (symmetry; reflexivity).
  destruct (parseFloat (String a s)); reflexivity.
Qed.

Lemma lookup_map_asNumber (k : string) (ps : list (string * value)) :
  lookup k (map (fun p => (fst p, asNumber (snd p))) ps) = asNumber (lookup k ps).
Proof.
  induction ps as [| [k' v] ps IH]; simpl; [reflexivity |].
  destruct (String.eqb k k'); [reflexivity | exact IH].
Qed.

(** X9: a row of strings, as the rating script reads it off the CSV file,
    is rated as the row of the numbers [parseFloat] reads in its cells. *)
Theorem rateCollege_of_parsed_row (ps : list (string * value)) :
  rateCollege (VObj (map (fun p => (fst p, asNumber (snd p))) ps))
  = rateCollege (VObj ps).
Proof.
  unfold RateSystem.rateCollege. cbn [or_else truthy]. unfold field. cbn [get].
  rewrite !lookup_map_asNumber.
  unfold RateSystem.acceptanceNorm, collegeTestNorm, collegeSatNorm, collegeActNorm,
    graduationNorm, retentionNorm, rateNorm, earningsNorm, RateSystem.enrollmentNorm,
    ratioNorm.
  now rewrite !parseNum_asNumber.
Qed.

Lemma lookup_assign_other (k k' : string) (v : value) (ps : list (string * value)) :
  String.eqb k' k = false -> lookup k' (assign k v ps) = lookup k' ps.
Proof.
  intro H. induction ps as [| [k0 v0] ps IH]; simpl.
  - now rewrite H.
  - destruct (String.eqb k k0) eqn:E; simpl.
    + apply String.eqb_eq in E. subst k0. now rewrite H.
    + now rewrite IH.
Qed.

Lemma assign_assign (k : string) (v w : value) (ps : list (string * value)) :
  assign k v (assign k w ps) = assign k v ps.
Proof.
  induction ps as [| [k0 v0] ps IH]; simpl.
  - now rewrite String.eqb_refl.
  - destruct (String.eqb k k0) eqn:E; simpl.
    + now rewrite String.eqb_refl.
    + now rewrite E, IH.
Qed.

(** Rewrites the eight reads of [rateCollege] on an object to which a
    property outside the eight was assigned. *)
Ltac frame_college :=
  unfold RateSystem.rateCollege; cbn [or_else truthy]; unfold field; cbn [get];
  repeat rewrite lookup_assign_other
    by (reflexivity || (rewrite String.eqb_sym; assumption));
  reflexivity.

(** X10: [rateCollege] reads the eight properties it destructures and
    nothing else: setting a property of any other name leaves the rating
    as it was.  The name [__proto__] is set apart with the eight: an
    assignment to it sets no own property, and can change what the college
    inherits under the eight names. *)
Theorem rateCollege_reads_eight (ps : list (string * value)) (k : string)
    (v : value) :
  existsb (String.eqb k) ("__proto__" :: collegeKeys) = false ->
  rateCollege (VObj (assign k v ps)) = rateCollege (VObj ps).
Proof.
  intro H. simpl in H.
  repeat (apply orb_false_iff in H; destruct H as [? H]).
  frame_college.
Qed.

(** X11: the loop of [main] can be run again on its own result: on
    rows that are objects, the ratings it assigns do not depend on the
    [rating] already there. *)
Theorem rateRows_idempotent (rows : list value) :
  forallb isObject rows = true ->
  rateRows NumberToString (rateRows NumberToString rows)
  = rateRows NumberToString rows.
Proof.
  intros _. unfold rateRows. rewrite map_map. apply map_ext. intro college.
  destruct college as [ | | b | x | s | l | ps]; try reflexivity.
  cbn [setProp].
  assert (E : rateCollege (VObj (assign "rating" (VNum (rateCollege (VObj ps))) ps))
              = rateCollege (VObj ps)) by frame_college.
  rewrite E. now rewrite assign_assign.
Qed.

End CollegeShape.

(** ** getAdmissionOdds: the clamp reached, the even point, strings *)

Section OddsEdges.

Variable NumberToString : num -> string.

Abbreviation getAdmissionOdds := (RateSystem.getAdmissionOdds NumberToString).
Abbreviation scoreNorm := (RateSystem.scoreNorm NumberToString).
Abbreviation delta := (RateSystem.delta NumberToString).

Lemma unclampedOdds_65 : 97.7 <= unclampedOdds 65.
Proof. vm_compute. discriminate. Qed.

(** The rounding of the odds of a finite delta, from a bracket of the
    value before the rounding. *)
Lemma round_odds (d : Q) (n : Z) :
  (forall o, oddsOfDelta (Fin d) = Fin o ->
             inject_Z n - 0.5 <= o /\ o < inject_Z n + 0.5) ->
  Num.round (oddsOfDelta (Fin d)) = Fin (inject_Z n).
Proof.
  intro H. destruct (oddsOfDelta_Fin d) as (o & E & _). rewrite E.
  destruct (H o E) as [Hlo Hhi]. unfold Num.round. f_equal. f_equal.
  pose proof (Qfloor_le (o + 0.5)) as F1. pose proof (Qlt_floor (o + 0.5)) as F2.
  rewrite inject_Z_plus in F2. change (inject_Z 1) with 1 in F2.
  assert (A : inject_Z (Qfloor (o + 0.5)) < inject_Z (n + 1)).
  { rewrite inject_Z_plus. change (inject_Z 1) with 1. lra. }
  assert (B : inject_Z n < inject_Z (Qfloor (o + 0.5) + 1)).
  { rewrite inject_Z_plus. change (inject_Z 1) with 1. lra. }
  rewrite <- Zlt_Qlt in A, B. lia.
Qed.

(** X12: scores of [0, 100] that are 65 or more apart give the ends of
    the range: 98 for the higher against the lower, 2 the other way. *)
Theorem odds_saturate (s c : Q) :
  0 <= c -> s <= 100 -> 65 <= s - c ->
  getAdmissionOdds (VNum s) (VNum c) = Fin (inject_Z 98)
  /\ getAdmissionOdds (VNum c) (VNum s) = Fin (inject_Z 2).
Proof.
  intros Hc Hs Hd.
  unfold RateSystem.getAdmissionOdds, RateSystem.delta.
  destruct (scoreNorm_in_range NumberToString s) as (s' & -> & Es); [lra |].
  destruct (scoreNorm_in_range NumberToString c) as (c' & -> & Ec); [lra |].
  cbn [Num.sub Num.neg Num.add].
  pose proof unclampedOdds_65 as U.
  pose proof (unclampedOdds_mono 65 (s' + - c')) as M.
  pose proof (unclampedOdds_sym (s' + - c')) as S.
  assert (X : unclampedOdds (c' + - s') == 100 - unclampedOdds (s' + - c')).
  { rewrite <- S. unfold unclampedOdds.
    assert (Y : c' + - s' == - (s' + - c')) by lra. now rewrite Y. }
  split; apply round_odds; intros o Eo.
  - destruct (oddsOfDelta_Fin (s' + - c')) as (o' & Eo' & Ho & A1 & A2 & A3).
    rewrite Eo in Eo'. injection Eo' as <-.
    change (inject_Z 98) with 98.
    assert (97.7 <= unclampedOdds (s' + - c')) by lra.
    destruct (Qlt_le_dec 98 (unclampedOdds (s' + - c'))); use_cases; lra.
  - destruct (oddsOfDelta_Fin (c' + - s')) as (o' & Eo' & Ho & A1 & A2 & A3).
    rewrite Eo in Eo'. injection Eo' as <-.
    change (inject_Z 2) with 2.
    assert (97.7 <= unclampedOdds (s' + - c')) by lra.
    destruct (Qlt_le_dec (unclampedOdds (c' + - s')) 2); use_cases; lra.
Qed.

(** X13: on numbers, a student at or above the college after the clamp
    has odds of at least 50, and a student at or below it odds of at most
    50. *)
Theorem odds_by_side (s c : num) :
  (Num.leb 0 (delta (VNum s) (VNum c)) = true ->
   Num.leb 50 (getAdmissionOdds (VNum s) (VNum c)) = true)
  /\ (Num.leb (delta (VNum s) (VNum c)) 0 = true ->
      Num.leb (getAdmissionOdds (VNum s) (VNum c)) 50 = true).
Proof.
  unfold RateSystem.getAdmissionOdds.
  destruct (delta_num NumberToString s c) as (d & -> & _).
  assert (Z0 : Num.round (oddsOfDelta (Fin 0)) = Fin (inject_Z 50)).
  { apply round_odds. intros o Eo.
    destruct (oddsOfDelta_Fin 0) as (o' & Eo' & _ & _ & _ & A3).
    rewrite Eo in Eo'. injection Eo' as <-.
    assert (E : o == 50) by (rewrite A3; rewrite unclampedOdds_zero; lra).
    change (inject_Z 50) with 50. lra. }
  split; intro H; apply leb_Fin in H.
  - destruct (oddsOfDelta_mono 0 d H) as (o & p & Eo & -> & Hop).
    rewrite Eo in Z0. unfold Num.round in Z0.
    apply (f_equal (fun x => match x with Fin q => Qfloor q | _ => 0%Z end)) in Z0.
    rewrite !Qfloor_Z in Z0.
    unfold Num.round. apply leb_Fin. change 50 with (inject_Z 50).
    rewrite <- Zle_Qle. rewrite <- Z0. apply Qfloor_resp_le. lra.
  - destruct (oddsOfDelta_mono d 0 H) as (o & p & -> & Ep & Hop).
    rewrite Ep in Z0. unfold Num.round in Z0.
    apply (f_equal (fun x => match x with Fin q => Qfloor q | _ => 0%Z end)) in Z0.
    rewrite !Qfloor_Z in Z0.
    unfold Num.round. apply leb_Fin. change 50 with (inject_Z 50).
    rewrite <- Zle_Qle. rewrite <- Z0. apply Qfloor_resp_le. lra.
Qed.

Lemma scoreNorm_string (s : string) :
  isNaN (parseFloat s) = false ->
  scoreNorm (VStr s) = scoreNorm (VNum (parseFloat s)).
Proof.
  unfold RateSystem.scoreNorm, parseScore, or_else. cbn [as_string].
  destruct (parseFloat s) as [ | | | q]; try discriminate; try reflexivity.
  intros _. cbn [truthy isNaN orb].
  destruct (Num.eqb (Fin q) 0) eqn:E; [| reflexivity].
  cbn [negb]. cbn [Value.ToNumber]. apply eqb_Fin in E.
  destruct (min_Fin 100 q) as [[H ->] | [H _]]; [| lra].
  destruct (max_Fin 0 q) as [[H' _] | [H' ->]]; [lra |].
  reflexivity.
Qed.

(** X14: scores given as strings that [parseFloat] reads as a number give
    the odds of those numbers. *)
Theorem odds_of_numeric_strings (s t : string) :
  isNaN (parseFloat s) = false -> isNaN (parseFloat t) = false ->
  getAdmissionOdds (VStr s) (VStr t)
  = getAdmissionOdds (VNum (parseFloat s)) (VNum (parseFloat t)).
Proof.
  intros Hs Ht. unfold RateSystem.getAdmissionOdds, RateSystem.delta.
  now rewrite (scoreNorm_string s Hs), (scoreNorm_string t Ht).
Qed.

End OddsEdges.

(** ** server.js: writing and reading a CSV line *)

Section CsvRoundTrip.

Variable NumberToString : num -> string.

Abbreviation escapeCSV := (Csv.escapeCSV NumberToString).
Abbreviation writeRow := (writeRow NumberToString).

Lemma append_assoc_char (cur : string) (a : ascii) (v : string) :
  (cur ++ String a EmptyString) ++ v = cur ++ String a v.
Proof. induction cur as [| c cur IH]; simpl; [reflexivity | now rewrite IH]. Qed.

Lemma append_empty_r (s : string) : s ++ "" = s.
Proof. induction s as [| c s IH]; simpl; [reflexivity | now rewrite IH]. Qed.

(** A value without quote and comma is read as it stands. *)
Lemma from_plain (v tail cur : string) (values : list string) :
  includes dquote v = false -> includes comma v = false ->
  parseCSVLine_from (v ++ tail) cur false values
  = parseCSVLine_from tail (cur ++ v) false values.
Proof.
  revert cur. induction v as [| a v IH]; intros cur Hq Hc; simpl.
  - now rewrite append_empty_r.
  - simpl in Hq, Hc. apply orb_false_iff in Hq. destruct Hq as [Hq1 Hq2].
    apply orb_false_iff in Hc. destruct Hc as [Hc1 Hc2].
    rewrite Hq1, Hc1. cbn [andb]. rewrite IH by assumption.
    now rewrite append_assoc_char.
Qed.

(** Inside quotes, the doubled text of a value is read back up to the
    closing quote, when what follows does not start with a quote. *)
Lemma from_quoted (v tail cur : string) (values : list string) :
  startsWithQuote tail = false ->
  parseCSVLine_from (doubleQuotes v ++ String dquote tail) cur true values
  = parseCSVLine_from tail (cur ++ v) false values.
Proof.
  intro Ht. revert cur. induction v as [| a v IH]; intro cur.
  - cbn [doubleQuotes append]. rewrite append_empty_r.
    cbn [parseCSVLine_from]. rewrite Ascii.eqb_refl.
    destruct tail as [| n t]; [reflexivity |].
    simpl in Ht. rewrite Ht. reflexivity.
  - cbn [doubleQuotes]. destruct (Ascii.eqb a dquote) eqn:E.
    + apply Ascii.eqb_eq in E. subst a.
      cbn [append parseCSVLine_from]. rewrite Ascii.eqb_refl. cbn [andb].
      rewrite IH. now rewrite append_assoc_char.
    + cbn [append parseCSVLine_from]. rewrite E. rewrite andb_false_r.
      rewrite IH. now rewrite append_assoc_char.
Qed.

Lemma from_escaped (s tail : string) (values : list string) :
  startsWithQuote tail = false ->
  parseCSVLine_from (escapeCSV (VStr s) ++ tail) "" false values
  = parseCSVLine_from tail s false values.
Proof.
  intro Ht. unfold Csv.escapeCSV. cbn [ToString]. cbv zeta.
  destruct (includes comma s || includes dquote s || includes newline s) eqn:E.
  - change (String dquote (doubleQuotes s ++ String dquote "") ++ tail)
      with (String dquote ((doubleQuotes s ++ String dquote "") ++ tail)).
    rewrite append_assoc_char.
    pose proof (from_quoted s tail "" values Ht) as Q. cbn [append] in Q.
    rewrite <- Q. clear Q.
    destruct (doubleQuotes s ++ String dquote tail) as [| n r] eqn:D.
    + destruct (doubleQuotes s); discriminate.
    + cbn [parseCSVLine_from]. rewrite Ascii.eqb_refl, andb_false_r.
      reflexivity.
  - apply orb_false_iff in E. destruct E as [E _].
    apply orb_false_iff in E. destruct E as [Ec Eq].
    rewrite from_plain by assumption. reflexivity.
Qed.

Lemma writeRow_one (v : string) : writeRow [v] = escapeCSV (VStr v).
Proof. reflexivity. Qed.

Lemma writeRow_more (v w : string) (vs : list string) :
  writeRow (v :: w :: vs) = escapeCSV (VStr v) ++ String comma (writeRow (w :: vs)).
Proof. reflexivity. Qed.

(** What [parseCSVLine] reads off a written row: every value trimmed and
    without the quotes it may have had around it. *)
Lemma from_row (v : string) (vs : list string) (values : list string) :
  parseCSVLine_from (writeRow (v :: vs)) "" false values
  = (values ++ map (fun s => stripQuotes (trim s)) (v :: vs))%list.
Proof.
  revert v values. induction vs as [| w vs IH]; intros v values.
  - rewrite writeRow_one.
    rewrite <- (append_empty_r (escapeCSV (VStr v))).
    rewrite from_escaped by reflexivity. reflexivity.
  - rewrite writeRow_more.
    rewrite from_escaped by reflexivity.
    cbn [parseCSVLine_from].
    change (Ascii.eqb comma dquote) with false. cbv iota.
    rewrite Ascii.eqb_refl. cbn [andb negb]. rewrite IH.
    rewrite <- app_assoc. reflexivity.
Qed.

Lemma survivesRead_ok (s : string) :
  survivesRead s = true -> stripQuotes (trim s) = s.
Proof.
  unfold survivesRead. intro H. apply andb_prop in H. destruct H as [T Q].
  apply String.eqb_eq in T. rewrite T. unfold stripQuotes.
  apply negb_true_iff in Q. now rewrite Q.
Qed.

(** X15: [parseCSVLine] reads back the values of a row whose values were
    escaped by [escapeCSV] and joined by commas, commas, quotes and line
    feeds inside the values included, provided no value has white space
    at its ends or both starts and ends with a double quote. *)
Theorem parseCSVLine_writeRow (v : string) (vs : list string) :
  forallb survivesRead (v :: vs) = true ->
  parseCSVLine (writeRow (v :: vs)) = v :: vs.
Proof.
  intro H. unfold parseCSVLine. rewrite from_row. cbn [app].
  rewrite forallb_forall in H.
  rewrite <- (map_id (v :: vs)) at 2. apply map_ext_in.
  intros s Hs. apply survivesRead_ok. now apply H.
Qed.

Lemma parseCSVValue_stripQuotes (s : string) : parseCSVValue s = stripQuotes s.
Proof. destruct s; reflexivity. Qed.

(** The loop of [readAccounts] and [parseCSVLine] read every line
    alike. *)
Lemma accountValues_from_eq (line current : string) (q : bool)
    (values : list string) :
  accountValues_from line current q values
  = parseCSVLine_from line current q values.
Proof.
  assert (G : forall n line, (String.length line <= n)%nat ->
            forall current q values,
              accountValues_from line current q values
              = parseCSVLine_from line current q values).
  { clear. induction n as [| n IH]; intros line Hn current q values.
    - destruct line; [| simpl in Hn; lia]. simpl.
      now rewrite parseCSVValue_stripQuotes.
    - destruct line as [| c rest]; simpl.
      + now rewrite parseCSVValue_stripQuotes.
      + simpl in Hn. destruct (Ascii.eqb c dquote).
        * destruct rest as [| c' rest'].
          -- apply IH. simpl. lia.
          -- rewrite (andb_comm q). destruct (Ascii.eqb c' dquote && q).
             ++ apply IH. simpl in Hn. lia.
             ++ apply IH. lia.
        * rewrite parseCSVValue_stripQuotes.
          destruct (Ascii.eqb c comma && negb q); apply IH; lia. }
  apply (G (String.length line)). lia.
Qed.

(** X16: the loop of [readAccounts] reads back the values of a row that
    [writeAccounts] wrote, under the same proviso; it reads every line as
    [parseCSVLine] does. *)
Theorem accountValues_writeRow (v : string) (vs : list string) :
  forallb survivesRead (v :: vs) = true ->
  accountValues (writeRow (v :: vs)) = v :: vs
  /\ forall line, accountValues line = parseCSVLine line.
Proof.
  intro H. split.
  - unfold accountValues. rewrite accountValues_from_eq, from_row. cbn [app].
    rewrite forallb_forall in H.
    rewrite <- (map_id (v :: vs)) at 2. apply map_ext_in.
    intros s Hs. apply survivesRead_ok. now apply H.
  - intro line. apply accountValues_from_eq.
Qed.

Lemma endsWithQuote_snoc (s : string) :
  endsWithQuote (s ++ String dquote "") = true.
Proof.
  induction s as [| a s IH]; [reflexivity |].
  cbn [append endsWithQuote]. destruct (s ++ String dquote "") eqn:E; [| exact IH].
  destruct s; discriminate.
Qed.

Lemma dropLast_snoc (s : string) (a : ascii) : dropLast (s ++ String a "") = s.
Proof.
  induction s as [| b s IH]; [reflexivity |].
  cbn [append dropLast]. destruct (s ++ String a "") eqn:E.
  - destruct s; discriminate.
  - now rewrite IH.
Qed.

Lemma undouble_double (s : string) : undoubleQuotes (doubleQuotes s) = s.
Proof.
  induction s as [| a s IH]; [reflexivity |].
  cbn [doubleQuotes]. destruct (Ascii.eqb a dquote) eqn:E.
  - apply Ascii.eqb_eq in E. subst a. cbn [undoubleQuotes].
    rewrite Ascii.eqb_refl. cbn [andb]. now rewrite IH.
  - cbn [undoubleQuotes]. destruct (doubleQuotes s) as [| b r] eqn:D.
    + destruct s as [| c s']; [reflexivity |].
      simpl in D. destruct (Ascii.eqb c dquote); discriminate.
    + rewrite E. cbn [andb]. now rewrite IH.
Qed.

(** X17: [parseCSVValue] undoes [escapeCSV] on every string. *)
Theorem parseCSVValue_escapeCSV (s : string) :
  parseCSVValue (escapeCSV (VStr s)) = s.
Proof.
  unfold Csv.escapeCSV. cbn [ToString]. cbv zeta.
  destruct (includes comma s || includes dquote s || includes newline s) eqn:E.
  - unfold parseCSVValue. cbn [is_empty]. unfold stripQuotes.
    cbn [startsWithQuote]. rewrite Ascii.eqb_refl. cbn [andb].
    assert (X : endsWithQuote (String dquote (doubleQuotes s ++ String dquote ""))
                = true).
    { apply (endsWithQuote_snoc (String dquote (doubleQuotes s))). }
    rewrite X. cbn [slice_1_m1]. rewrite dropLast_snoc. apply undouble_double.
  - apply orb_false_iff in E. destruct E as [E _].
    apply orb_false_iff in E. destruct E as [_ Eq].
    unfold parseCSVValue. destruct s as [| a s]; [reflexivity |].
    cbn [is_empty]. unfold stripQuotes. cbn [startsWithQuote].
    simpl in Eq. apply orb_false_iff in Eq. destruct Eq as [Eq _].
    rewrite Eq. reflexivity.
Qed.

End CsvRoundTrip.

(** ** server.js: the rating computed for a profile *)

Section ProfileRating.

Variable NumberToString : num -> string.
Variable GPT_API_KEY : string.
Variable fetch : request -> fetch_result.

Abbreviation ratingOf := (Profile.ratingOf NumberToString GPT_API_KEY fetch).
Abbreviation accountData := (Profile.accountData NumberToString GPT_API_KEY fetch).

Lemma apCourses_ok_studentOf (pd : value) :
  apCourses_ok (studentOf pd) = bodyCoursesOk pd.
Proof.
  unfold apCourses_ok, bodyCoursesOk, studentOf.
  change (field (or_else (VObj _) (VObj [])) "apCourses")
    with (or_else (field pd "apCourses") (VArr [])).
  generalize (field pd "apCourses"). intro v. unfold or_else.
  destruct (truthy v) eqn:T.
  - destruct v; simpl in *; try discriminate; try reflexivity; now rewrite T.
  - destruct v; simpl in *; try discriminate; try reflexivity; now rewrite T.
Qed.

Lemma studentThrows_studentOf (pd : value) :
  studentThrows (studentOf pd) = bodyThrows pd.
Proof.
  unfold studentThrows, bodyThrows, studentOf.
  change (or_else (VObj _) (VObj [])) with
    (VObj [("gpa", field pd "gpa");
           ("weighted", field pd "weighted");
           ("sat", field pd "sat");
           ("act", field pd "act");
           ("apCourses", or_else (field pd "apCourses") (VArr []));
           ("activities", or_else (field pd "activities") (VArr []))]).
  cbn [field get lookup String.eqb Ascii.eqb Bool.eqb].
  f_equal. unfold or_else. generalize (field pd "activities"). intro v.
  destruct (truthy v) eqn:T; [| reflexivity].
  destruct v; try reflexivity; discriminate.
Qed.

(** X18: when the body has a [user_id], so that the handler reaches
    [saveAccount], the rating of the account data it hands to
    [saveAccount] is [null] exactly when [rateStudent] rejects, its
    rejection being caught: when the [apCourses] of the body is truthy and
    not an array, or a conversion throws.  Otherwise it is a number of at
    most 100 and not [NaN], so that the test against [NaN] never fires.
    What [saveAccount] then writes is not part of this property. *)
Theorem rating_handed_to_saveAccount (pd user_id : value) :
  get pd "user_id" = Some user_id -> truthy user_id = true ->
  (negb (bodyCoursesOk pd) || bodyThrows pd = true
   /\ field (accountData pd) "rating" = VNull)
  \/ (negb (bodyCoursesOk pd) || bodyThrows pd = false
      /\ exists r : num,
           field (accountData pd) "rating" = VNum r /\ Num.leb r 100 = true).
Proof.
  intros _ _.
  change (field (accountData pd) "rating") with (ratingOf pd).
  unfold Profile.ratingOf.
  destruct (negb (bodyCoursesOk pd) || bodyThrows pd) eqn:E.
  - left. split; [reflexivity |].
    assert (R : rateStudent NumberToString GPT_API_KEY fetch (studentOf pd) = None).
    { apply rateStudent_rejects.
      rewrite apCourses_ok_studentOf, studentThrows_studentOf.
      apply orb_prop in E. destruct E as [E | E]; [right | now left].
      now apply negb_true_iff. }
    now rewrite R.
  - right. split; [reflexivity |].
    apply orb_false_iff in E. destruct E as [E1 E2]. apply negb_false_iff in E1.
    destruct (rateStudent_at_most_100 NumberToString GPT_API_KEY fetch (studentOf pd))
      as (n & -> & Hn).
    { now rewrite studentThrows_studentOf. }
    { now rewrite apCourses_ok_studentOf. }
    exists (Fin (inject_Z n)). split; [reflexivity |].
    apply leb_Fin. change 100 with (inject_Z 100). now rewrite <- Zle_Qle.
Qed.

End ProfileRating.

(** ** The rating script *)

Section ScriptProperties.

Variable NumberToString : num -> string.

Abbreviation main := (Script.main NumberToString).

Lemma lookup_converts (k : string) (ps : list (string * value)) :
  forallb (fun p => negb (throwsToPrimitive (snd p))) ps = true ->
  throwsToPrimitive (or_else (lookup k ps) (VStr "")) = false.
Proof.
  induction ps as [| [k' v] ps IH]; [reflexivity |].
  cbn [forallb lookup snd]. intro H. apply andb_prop in H. destruct H as [Hv Hr].
  destruct (String.eqb k k'); [| now apply IH].
  apply negb_true_iff in Hv. unfold or_else. now destruct (truthy v).
Qed.

Lemma csvCells_convertible (row : value) (headers : list string) :
  convertibleRow row = true -> csvCells NumberToString row headers <> None.
Proof.
  destruct row as [ | | b | x | s | l | ps]; try discriminate. intro H.
  induction headers as [| h hs IH]; [discriminate |].
  cbn [csvCells]. unfold csvCell, cellString. cbv zeta.
  rewrite (lookup_converts h ps H).
  destruct (String.eqb h "__proto__" && negb (has_own h ps)); cbn [option_map];
    now destruct (csvCells NumberToString (VObj ps) hs).
Qed.

Lemma rowLines_convertible (headers : list string) (rows : list value) :
  forallb convertibleRow rows = true ->
  rowLines NumberToString headers rows <> None.
Proof.
  induction rows as [| row rows IH]; simpl; [discriminate |].
  intro H. apply andb_prop in H. destruct H as [Ho Hr].
  pose proof (csvCells_convertible row headers Ho) as C.
  assert (L : rowLine NumberToString headers row <> None).
  { unfold rowLine. destruct row; try discriminate;
      destruct headers; destruct (csvCells NumberToString _ _); easy. }
  destruct (rowLine NumberToString headers row); [| easy].
  destruct (rowLines NumberToString headers rows); [discriminate | now apply IH].
Qed.

Lemma assign_converts (k : string) (v : value) (ps : list (string * value)) :
  throwsToPrimitive v = false ->
  forallb (fun p => negb (throwsToPrimitive (snd p))) ps = true ->
  forallb (fun p => negb (throwsToPrimitive (snd p))) (assign k v ps) = true.
Proof.
  intro Hv. induction ps as [| [k' v'] ps IH]; cbn [assign forallb snd].
  - now rewrite Hv.
  - intro H. apply andb_prop in H. destruct H as [H1 H2].
    destruct (String.eqb k k'); cbn [forallb snd].
    + now rewrite Hv, H2.
    + now rewrite H1, IH.
Qed.

Lemma fillRow_converts (headers : list string) (index : nat) (values : list string)
    (row : list (string * value)) :
  forallb (fun p => negb (throwsToPrimitive (snd p))) row = true ->
  forallb (fun p => negb (throwsToPrimitive (snd p)))
          (fillRow headers index values row) = true.
Proof.
  revert index row. induction headers as [| h hs IH]; intros index row H; [exact H |].
  cbn [fillRow]. apply IH. unfold assignText.
  destruct (String.eqb h "__proto__" && negb (has_own h row)); [exact H |].
  now apply assign_converts.
Qed.

Lemma rowsOf_convertible (headers lines : list string) :
  forallb convertibleRow (rowsOf headers lines) = true.
Proof.
  unfold rowsOf.
  induction (filter _ _) as [| x l IH]; [reflexivity |].
  cbn [map forallb]. rewrite IH, andb_true_r.
  now apply fillRow_converts.
Qed.

Lemma rateRows_convertible (rows : list value) :
  forallb convertibleRow rows = true ->
  forallb convertibleRow (rateRows NumberToString rows) = true.
Proof.
  induction rows as [| row rows IH]; [reflexivity |].
  cbn [forallb]. intro H. apply andb_prop in H. destruct H as [Ho Hr].
  unfold rateRows. cbn [map forallb]. fold (rateRows NumberToString rows).
  rewrite (IH Hr), andb_true_r.
  destruct row; try discriminate. cbn [setProp convertibleRow].
  now apply assign_converts.
Qed.

Lemma strings_convert (l : list string) (extra : list value) :
  existsb throwsToPrimitive extra = false ->
  existsb throwsToPrimitive (map VStr l ++ extra)%list = false.
Proof.
  intro H. rewrite existsb_app, H, orb_false_r.
  induction l as [| x l IH]; [reflexivity | exact IH].
Qed.

(** X19: [main] throws before it writes its file exactly when the text it
    read has no line that is not blank: [parseCSV] then returns an empty
    array instead of headers and rows, and [rows.length] is read off
    [undefined].  On every other text the headers and the values of the
    rows are strings and ratings, whose conversions do not throw, and
    [writeCSV] is handed a text. *)
Theorem main_throws_iff (csvText : string) :
  main csvText = None <-> nonBlankLines csvText = [].
Proof.
  unfold Script.main, parseCSV. destruct (nonBlankLines csvText) as [| first rest].
  - split; reflexivity.
  - split; [| discriminate]. cbv zeta.
    change (field (VObj [("headers", VArr (map VStr (map trim (split comma first))));
                         ("rows", VArr (rowsOf (map trim (split comma first)) rest))])
                  "rows")
      with (VArr (rowsOf (map trim (split comma first)) rest)).
    change (field (VObj [("headers", VArr (map VStr (map trim (split comma first))));
                         ("rows", VArr (rowsOf (map trim (split comma first)) rest))])
                  "headers")
      with (VArr (map VStr (map trim (split comma first)))).
    cbn [as_array]. unfold writeCSV. intro H. exfalso.
    set (hs := map trim (split comma first)) in *.
    assert (C : existsb throwsToPrimitive
                  (if hasRating (map VStr hs) then map VStr hs
                   else (map VStr hs ++ [VStr "rating"])%list) = false).
    { destruct (hasRating (map VStr hs)).
      - rewrite <- (app_nil_r (map VStr hs)). now apply strings_convert.
      - now apply strings_convert. }
    rewrite C in H.
    match type of H with
    | option_map _ (rowLines _ ?h ?r) = None =>
        pose proof (rowLines_convertible h r) as X;
        destruct (rowLines NumberToString h r)
    end; [discriminate |].
    apply X; [| reflexivity]. apply rateRows_convertible, rowsOf_convertible.
Qed.

End ScriptProperties.

Lemma includes_app (c : ascii) (s t : string) :
  includes c (s ++ t) = includes c s || includes c t.
Proof.
  induction s as [| a s IH]; simpl; [reflexivity |].
  now rewrite IH, orb_assoc.
Qed.

(** Trimming removes bytes and adds none: the start of a string that is
    trimmed off, and the end. *)
Lemma trimStart_suffix (s : string) : exists p, s = p ++ trimStart s.
Proof.
  assert (G : forall n s, (String.length s <= n)%nat -> exists p, s = p ++ trimStart s).
  { clear s. induction n as [| n IH]; intros s L.
    - destruct s; [now exists EmptyString | simpl in L; lia].
    - destruct s as [| c r]; [now exists EmptyString |].
      cbn [trimStart]. destruct (is_ws c).
      { destruct (IH r) as [p Hp]; [simpl in L; lia |].
        exists (String c p). cbn [append]. now rewrite <- Hp. }
      destruct r as [| d r1]; [now exists EmptyString |].
      destruct (is_ws2 c d).
      { destruct (IH r1) as [p Hp]; [simpl in L; lia |].
        exists (String c (String d p)). cbn [append]. now rewrite <- Hp. }
      destruct r1 as [| e r2]; [now exists EmptyString |].
      destruct (is_ws3 c d e); [| now exists EmptyString].
      destruct (IH r2) as [p Hp]; [simpl in L; lia |].
      exists (String c (String d (String e p))). cbn [append]. now rewrite <- Hp. }
  exact (G (String.length s) s (le_n _)).
Qed.

Lemma trimEnd_prefix (s : string) : exists q, s = trimEnd s ++ q.
Proof.
  induction s as [| c r [q IH]]; [now exists EmptyString |].
  cbn [trimEnd]. destruct (is_ws_char (String c (trimEnd r))).
  - now exists (String c r).
  - exists q. cbn [append]. now rewrite <- IH.
Qed.

Lemma includes_trimStart (c : ascii) (s : string) :
  includes c s = false -> includes c (trimStart s) = false.
Proof.
  destruct (trimStart_suffix s) as [p Hp]. intro H.
  rewrite Hp, includes_app in H. apply orb_false_iff in H. now destruct H.
Qed.

Lemma includes_trimEnd (c : ascii) (s : string) :
  includes c s = false -> includes c (trimEnd s) = false.
Proof.
  destruct (trimEnd_prefix s) as [q Hq]. intro H.
  rewrite Hq, includes_app in H. apply orb_false_iff in H. now destruct H.
Qed.

Lemma includes_trim (c : ascii) (s : string) :
  includes c s = false -> includes c (trim s) = false.
Proof. intro H. unfold trim. now apply includes_trimEnd, includes_trimStart. Qed.

Lemma lineValues_from_no_quote (line current : string) (q : bool)
    (values : list string) :
  includes dquote current = false ->
  forallb (fun v => negb (includes dquote v)) values = true ->
  forallb (fun v => negb (includes dquote v))
          (lineValues_from line current q values) = true.
Proof.
  revert current q values.
  induction line as [| a line IH]; intros current q values Hc Hv; simpl.
  - rewrite forallb_app, Hv. simpl. now rewrite (includes_trim _ _ Hc).
  - destruct (Ascii.eqb a dquote) eqn:E.
    + now apply IH.
    + destruct (Ascii.eqb a comma && negb q).
      * apply IH; [reflexivity |].
        rewrite forallb_app, Hv. simpl. now rewrite (includes_trim _ _ Hc).
      * apply IH; [| exact Hv]. rewrite includes_app, Hc. simpl. now rewrite E.
Qed.

Lemma nth_no_quote (values : list string) (index : nat) :
  forallb (fun v => negb (includes dquote v)) values = true ->
  includes dquote (nth index values EmptyString) = false.
Proof.
  revert index. induction values as [| v values IH]; intros index H.
  - destruct index; reflexivity.
  - simpl in H. apply andb_prop in H. destruct H as [Hv Hr].
    destruct index; simpl; [now apply negb_true_iff in Hv | now apply IH].
Qed.

(** X20: the parser of the rating script keeps no double quote: none of
    the values of a line holds one, the quotes doubled inside a quoted
    value included, and the removal of surrounding quotes that follows
    never applies. *)
Theorem lineValues_drop_quotes (line : string) (index : nat) :
  forallb (fun v => negb (includes dquote v)) (lineValues line) = true
  /\ cell (lineValues line) index = nth index (lineValues line) EmptyString.
Proof.
  assert (H : forallb (fun v => negb (includes dquote v)) (lineValues line) = true).
  { unfold lineValues. now apply lineValues_from_no_quote. }
  split; [exact H |].
  unfold cell. cbv zeta.
  pose proof (nth_no_quote (lineValues line) index H) as N.
  destruct (nth index (lineValues line) EmptyString) as [| a r]; [reflexivity |].
  simpl in N. apply orb_false_iff in N. destruct N as [N _].
  cbn [startsWithQuote]. now rewrite N.
Qed.

(** ** The reply of the capability *)

Lemma take_digits_run (ds post : string) :
  allChars is_digit ds = true -> startsWithDigit post = false ->
  take_digits (ds ++ post) = ds.
Proof.
  intros Hd Hp. induction ds as [| a ds IH]; simpl.
  - destruct post as [| b post]; [reflexivity |].
    simpl in Hp. simpl. now rewrite Hp.
  - simpl in Hd. apply andb_prop in Hd. destruct Hd as [Ha Hd].
    rewrite Ha. now rewrite IH.
Qed.

Lemma first_digits_skip (pre s : string) :
  allChars (fun c => negb (is_digit c)) pre = true ->
  first_digits (pre ++ s) = first_digits s.
Proof.
  intro H. induction pre as [| a pre IH]; [reflexivity |].
  simpl in H. apply andb_prop in H. destruct H as [Ha Hp].
  apply negb_true_iff in Ha. simpl. rewrite Ha. now apply IH.
Qed.

(** X21: the score is read off the first run of digits of the reply and
    off nothing else: what comes before it, a sign included, and what
    comes after it, a fraction included, do not count. *)
Theorem reply_score_first_run (pre ds post : string) (d : ascii) :
  allChars (fun c => negb (is_digit c)) pre = true ->
  allChars is_digit (String d ds) = true ->
  startsWithDigit post = false ->
  first_digits (pre ++ String d ds ++ post) = Some (String d ds)
  /\ reply_score (pre ++ String d ds ++ post) = parseInt (String d ds).
Proof.
  intros Hpre Hds Hpost.
  assert (F : first_digits (pre ++ String d ds ++ post) = Some (String d ds)).
  { rewrite first_digits_skip by exact Hpre.
    assert (Hd : is_digit d = true).
    { simpl in Hds. now apply andb_prop in Hds. }
    change (String d ds ++ post) with (String d (ds ++ post)).
    cbn [first_digits]. rewrite Hd.
    change (String d (ds ++ post)) with (String d ds ++ post).
    now rewrite take_digits_run. }
  split; [exact F |]. unfold reply_score. now rewrite F.
Qed.

(** ** The further properties at concrete inputs *)

Lemma rateStudent_at_most_100_always_witness :
  rateStudent noNumberToString "" fetchRejects negativeApStudent
  = Some (Fin (inject_Z (-128)))
  /\ Num.leb (Fin (inject_Z (-128))) 100 = true.
Proof.
  split; [reflexivity |].
  apply (rateStudent_at_most_100_always noNumberToString "" fetchRejects
           negativeApStudent).
  reflexivity.
Defined.


Lemma reported_sat_against_untested_witness :
  0 < 600 /\ absent_empty_or_zero VUndef = true /\
  exists t, testNorm noNumberToString (VNum 600) VUndef = Fin t
            /\ (t < 1 # 3 <-> 600 < 800).
Proof.
  split; [reflexivity |]. split; [reflexivity |].
  apply (reported_sat_against_untested noNumberToString 600 VUndef); reflexivity.
Defined.

Lemma acceptanceNorm_antitone_witness :
  Num.leb (acceptanceNorm noNumberToString (VNum 0.5))
          (acceptanceNorm noNumberToString (VNum 0.1)) = true.
Proof.
  apply (acceptanceNorm_antitone noNumberToString 0.1 0.5); discriminate.
Defined.

Lemma enrollmentNorm_shape_witness :
  exists n, enrollmentNorm noNumberToString (VNum 15000) = Fin n /\ n == 1.
Proof.
  destruct (enrollmentNorm_shape noNumberToString 15000) as (n & E & _ & _ & H & _).
  exists n. split; [exact E |].
  destruct (H ltac:(discriminate) ltac:(discriminate)) as (_ & P & _).
  apply P. reflexivity.
Defined.

Lemma rateCollege_reads_eight_witness :
  existsb (String.eqb "rating") ("__proto__" :: collegeKeys) = false /\
  rateCollege noNumberToString (VObj (assign "rating" (VNum 58) sampleCollege))
  = rateCollege noNumberToString (VObj sampleCollege).
Proof.
  split; [reflexivity |].
  apply (rateCollege_reads_eight noNumberToString sampleCollege "rating" (VNum 58)).
  reflexivity.
Defined.

Lemma rateRows_idempotent_witness :
  forallb isObject [VObj sampleCollege] = true /\
  rateRows noNumberToString (rateRows noNumberToString [VObj sampleCollege])
  = rateRows noNumberToString [VObj sampleCollege].
Proof.
  split; [reflexivity |].
  apply (rateRows_idempotent noNumberToString [VObj sampleCollege]). reflexivity.
Defined.

Lemma odds_saturate_witness :
  getAdmissionOdds noNumberToString (VNum 90) (VNum 20) = Fin (inject_Z 98)
  /\ getAdmissionOdds noNumberToString (VNum 20) (VNum 90) = Fin (inject_Z 2).
Proof.
  apply (odds_saturate noNumberToString 90 20); discriminate.
Defined.

Lemma odds_by_side_witness :
  Num.leb 50 (getAdmissionOdds noNumberToString (VNum 70) (VNum 50)) = true
  /\ Num.leb (getAdmissionOdds noNumberToString (VNum 50) (VNum 70)) 50 = true.
Proof.
  split.
  - apply (proj1 (odds_by_side noNumberToString 70 50)). reflexivity.
  - apply (proj2 (odds_by_side noNumberToString 50 70)). reflexivity.
Defined.

Lemma odds_of_numeric_strings_witness :
  getAdmissionOdds noNumberToString (VStr "80") (VStr "50.5")
  = getAdmissionOdds noNumberToString (VNum (parseFloat "80")) (VNum (parseFloat "50.5")).
Proof.
  apply (odds_of_numeric_strings noNumberToString "80" "50.5"); reflexivity.
Defined.

Lemma parseCSVLine_writeRow_witness :
  forallb survivesRead sampleRow = true /\
  parseCSVLine (writeRow noNumberToString sampleRow) = sampleRow.
Proof.
  split; [reflexivity |].
  apply (parseCSVLine_writeRow noNumberToString (hd "" sampleRow) (tl sampleRow)).
  reflexivity.
Defined.

Lemma accountValues_writeRow_witness :
  forallb survivesRead sampleRow = true /\
  accountValues (writeRow noNumberToString sampleRow) = sampleRow.
Proof.
  split; [reflexivity |].
  apply (proj1 (accountValues_writeRow noNumberToString
                  (hd "" sampleRow) (tl sampleRow) eq_refl)).
Defined.

(** A body whose [apCourses] is a string: the rating handed on is
    [null]. *)
Lemma rating_handed_to_saveAccount_witness :
  get sampleBody "user_id" = Some (VStr "u1")
  /\ field (Profile.accountData noNumberToString "" fetchRejects sampleBody) "rating"
     = VNull.
Proof.
  split; [reflexivity |].
  destruct (rating_handed_to_saveAccount noNumberToString "" fetchRejects
              sampleBody (VStr "u1") eq_refl eq_refl) as [[_ H] | [H _]].
  - exact H.
  - discriminate H.
Defined.

(** A reply of [-7.5/10]: the sign and the fraction are not read. *)
Lemma reply_score_first_run_witness :
  reply_score "-7.5/10" = Fin (inject_Z 7).
Proof.
  exact (proj2 (reply_score_first_run "-" "" ".5/10" "7" eq_refl eq_refl eq_refl)).
Defined.

(** ** A written file read back

    The rating script writes the catalogue with [writeCSV]; server.js reads
    it with [parseCSV]. *)

Section FileRoundTrip.

Variable NumberToString : num -> string.

(** [writeCSV] escapes a text as [escapeCSV] does a string. *)
Lemma quoted_escape (s : string) :
  quoted s = escapeCSV NumberToString (VStr s).
Proof. reflexivity. Qed.


Lemma split_cons_nonempty (c : ascii) (s : string) : split c s <> [].
Proof.
  induction s as [| a s IH]; simpl; [discriminate |].
  destruct (Ascii.eqb a c); [discriminate |].
  destruct (split c s); [contradiction | discriminate].
Qed.























End FileRoundTrip.


(** ** The runtime at its edges *)

Module EdgeExamples.

Abbreviation nts := noNumberToString.

(** White space beyond ASCII is trimmed, and skipped by [parseInt]. *)
Example trim_unicode_space :
  trim (noBreakSpace ++ " 7 " ++ byteOrderMark) = "7"
  /\ parseInt (noBreakSpace ++ "42") = Fin (inject_Z 42).
Proof. split; reflexivity. Qed.

(** A text made of a no-break space is blank: the capability is not
    called, whatever it would reply. *)
Example blank_text_of_no_break_space :
  getActivitiesScore "key" (fetchReplies "9") noBreakSpace = Fin 5.5.
Proof. reflexivity. Qed.

(** A file that holds a byte order mark and nothing else has no line. *)
Example main_of_byte_order_mark : Script.main nts byteOrderMark = None.
Proof. reflexivity. Qed.

(** [rateStudent({gpa: {toString: 1}})] rejects at [gpaNum > 0], and
    [rateStudent({sat: {toString: 1}})] at [satNum > 0].  An own [valueOf]
    that is not callable is skipped, and the object converts through the
    [toString] it inherits: the GPA is then [NaN] and counts for nothing. *)
Example rateStudent_unconvertible :
  rateStudent nts "" fetchRejects (VObj [("gpa", unconvertible)]) = None
  /\ rateStudent nts "" fetchRejects (VObj [("sat", unconvertible)]) = None
  /\ rateStudent nts "" fetchRejects
       (VObj [("gpa", VObj [("valueOf", VNum 1)])]) = Some (Fin (inject_Z 21)).
Proof. repeat split; reflexivity. Qed.

(** An SAT and an ACT that [parseInt] reads as zero count as no test
    taken. *)
Example untaken_of_zero_strings :
  isUntaken (VStr "0") (VStr "0.9") = true.
Proof. reflexivity. Qed.

(** Under a header [__proto__] the parsers set no property, and
    [writeCSV] writes the text of [Object.prototype]. *)
Example proto_header :
  Csv.parseCSV ("name,__proto__" ++ String newline "A,x")
  = [VObj [("name", VStr "A")]]
  /\ Script.cellString nts (VObj [("name", VStr "A")]) "__proto__"
     = Some "[object Object]".
Proof. split; reflexivity. Qed.

End EdgeExamples.
